(** * Shaker Health Dashboard (app.py): metric derivation and advisory pipeline

    A shallow embedding of the data-processing part of [app.py]: the
    timestamp normaliser (lines 60-65), the utilisation derivation
    (lines 67-69), the KPI reductions (lines 73-79), the chart guards
    (lines 85-96), the daily aggregation (lines 98-118) and the advisory
    rule block (lines 131-152).

    Conventions of the embedding.
    - A pandas DataFrame is a finite map from column labels to columns; a
      column is a list of cells of one dtype, a missing cell (NaN / NaT)
      being [None].
    - float64 cells are exact rationals ([Q]); rounding and int64 wrap-around
      are not modelled.  Comparisons and maxima are the same either way; sums,
      products and quotients are not.
    - A reduction or an arithmetic operation on a column that is not numeric
      raises [TypeError] at its line.  (On a column of text pandas' [max]
      gives back a string, and the script stops one step later, at line 79,
      after two KPIs are displayed; what a run displays is therefore stated
      for a shaker-3 column that is numeric or absent.)
    - Python exceptions are values of [exn]; a block that can raise returns
      [exn + A]; the Streamlit calls a run makes are logged as [ui] events.
    - [pd.to_datetime] on one string and numpy's [argsort] live outside the
      repository; they are the two fields of the class [Pandas]. *)

From Stdlib Require Import ZArith QArith Lia Ascii String.
From stdpp Require Import base option strings list gmap sorting.

Local Open Scope Z_scope.

(** ** Exceptions and results *)

Inductive exn :=
| KeyError (labels : list string)
| TypeError
| ValueError (label : string)
| ParseError (pos : nat) (raw : string).

Definition result (A : Type) : Type := exn + A.

Definition rbind {A B} (m : result A) (f : A -> result B) : result B :=
  match m with
  | inl e => inl e
  | inr a => f a
  end.

Notation "'try!' x := m 'in' k" := (rbind m (fun x => k))
  (at level 10, x name, m at level 100, k at level 200).

(** ** Columns and frames *)

Inductive column :=
| StrCol (cells : list (option string))   (* dtype object, strings *)
| NumCol (cells : list (option Q))        (* dtype float64 / int64 *)
| TimeCol (cells : list (option Z))       (* dtype datetime64[ns] *)
| DateCol (cells : list (option Z)).      (* datetime.date, as a day number *)

Abbreviation DataFrame := (gmap string column).

Definition COL_DATE : string := "YYYY/MM/DD".
Definition COL_TIME : string := "HH:MM:SS".
Definition TIMESTAMP : string := "Timestamp".
Definition DATE : string := "Date".
Definition UTIL : string := "Screen Utilization (%)".
Definition WOB : string := "Weight on Bit (klbs)".
Definition FLOW : string := "MA_Flow_Rate (gal/min)".
Definition SOLIDS : string := "Solids Volume Rate (gpm)".
Definition SHAKER1 : string := "SHAKER #1 (Units)".
Definition SHAKER2 : string := "SHAKER #2 (Units)".
Definition SHAKER3 : string := "SHAKER #3 (PERCENT)".

(** [label in df.columns] *)
Definition has_col (df : DataFrame) (label : string) : bool :=
  bool_decide (is_Some (df !! label)).

(** [set(labels).issubset(df.columns)] *)
Definition issubset (labels : list string) (df : DataFrame) : bool :=
  forallb (has_col df) labels.

(** [df[label]] *)
Definition getitem (df : DataFrame) (label : string) : result column :=
  match df !! label with
  | Some c => inr c
  | None => inl (KeyError [label])
  end.

(** ** The library operations the script calls *)

Class Pandas := {
  (** [pd.to_datetime] on one string: nanoseconds since the epoch, or
      [None] when the string cannot be parsed (the call raises). *)
  parse_datetime : string -> option Z;
  (** numpy's [argsort] with [kind='quicksort'], the default of
      [DataFrame.sort_values]: the positions of the values in ascending
      order of value. *)
  argsort : list Z -> list nat
}.

(** What pandas documents for the default sort kind: the result is sorted
    and is a rearrangement of the input; the order of ties is left open
    (only [kind='mergesort'] and [kind='stable'] are documented stable). *)
Definition argsort_contract (sort : list Z -> list nat) : Prop :=
  forall l : list Z,
    sort l ≡ₚ seq 0 (length l) /\
    StronglySorted Z.le ((fun i => default 0 (l !! i)) <$> sort l).

(** [series + sep] on an object column *)
Definition str_add_scalar (c : column) (sep : string) : result column :=
  match c with
  | StrCol l => inr (StrCol ((fun cell : option string =>
                              (fun s => s +:+ sep) <$> cell) <$> l))
  | _ => inl TypeError
  end.

(** [series + series] on object columns, cell by cell *)
Definition str_add (c1 c2 : column) : result column :=
  match c1, c2 with
  | StrCol l1, StrCol l2 =>
      inr (StrCol (zip_with (fun a b =>
                     match a, b with
                     | Some s, Some t => Some (s +:+ t)
                     | _, _ => None
                     end) l1 l2))
  | _, _ => inl TypeError
  end.

(** [df['YYYY/MM/DD'] + ' ' + df['HH:MM:SS']] (line 61) *)
Definition date_time_strings (df : DataFrame) : result column :=
  try! d := getitem df COL_DATE in
  try! d' := str_add_scalar d " " in
  try! t := getitem df COL_TIME in
  str_add d' t.

Section Library.
Context `{Pandas}.

(** [pd.to_datetime(series)]: a missing cell becomes NaT; the first string
    that does not parse raises, naming its position and text. *)
Fixpoint to_datetime_from (pos : nat) (l : list (option string))
  : result (list (option Z)) :=
  match l with
  | [] => inr []
  | None :: l' => try! ts := to_datetime_from (S pos) l' in inr (None :: ts)
  | Some s :: l' =>
      match parse_datetime s with
      | None => inl (ParseError pos s)
      | Some t => try! ts := to_datetime_from (S pos) l' in inr (Some t :: ts)
      end
  end.

Definition to_datetime (c : column) : result (list (option Z)) :=
  match c with
  | StrCol l => to_datetime_from 0 l
  | _ => inl TypeError
  end.

(** pandas' [nargsort] with [na_position='last']: the positions of the
    non-missing values in ascending order of value, then those of the
    missing ones ([idx[~mask]], [items[~mask]] and [idx[mask]]). *)
Definition cell_at (ts : list (option Z)) (i : nat) : option Z :=
  default None (ts !! i).

Definition non_nan_idx (ts : list (option Z)) : list nat :=
  filter (fun i => is_Some (cell_at ts i)) (seq 0 (length ts)).

Definition nan_idx (ts : list (option Z)) : list nat :=
  filter (fun i => ~ is_Some (cell_at ts i)) (seq 0 (length ts)).

Definition non_nans (ts : list (option Z)) : list Z :=
  (fun i => default 0 (cell_at ts i)) <$> non_nan_idx ts.

Definition nargsort (ts : list (option Z)) : list nat :=
  ((fun j => default 0%nat (non_nan_idx ts !! j)) <$> argsort (non_nans ts))
  ++ nan_idx ts.

End Library.

(** [take]: the cells at the given positions, in that order *)
Definition take {A} (idx : list nat) (l : list (option A)) : list (option A) :=
  (fun i => default None (l !! i)) <$> idx.

Definition col_take (idx : list nat) (c : column) : column :=
  match c with
  | StrCol l => StrCol (take idx l)
  | NumCol l => NumCol (take idx l)
  | TimeCol l => TimeCol (take idx l)
  | DateCol l => DateCol (take idx l)
  end.

Definition ns_per_day : Z := 86400000000000.

(** [series.dt.date] *)
Definition dt_date (c : column) : result column :=
  match c with
  | TimeCol ts =>
      inr (DateCol ((fun cell : option Z =>
                       (fun t => t / ns_per_day) <$> cell) <$> ts))
  | _ => inl TypeError
  end.

Section Normalizer.
Context `{Pandas}.

(** [df.sort_values(by)]: every column is rearranged by the positions
    that sort the key column.  The script sorts by the datetime column it
    has just assigned; no other dtype reaches this function. *)
Definition sort_values (df : DataFrame) (by_label : string) : result DataFrame :=
  try! c := getitem df by_label in
  match c with
  | TimeCol ts => inr (col_take (nargsort ts) <$> df)
  | _ => inl TypeError
  end.

(** Lines 61-63, the body of the [try]. *)
Definition normalize (df : DataFrame) : result DataFrame :=
  try! s := date_time_strings df in
  try! ts := to_datetime s in
  let df1 := <[TIMESTAMP := TimeCol ts]> df in
  try! df2 := sort_values df1 TIMESTAMP in
  try! t2 := getitem df2 TIMESTAMP in
  try! dates := dt_date t2 in
  inr (<[DATE := dates]> df2).

End Normalizer.

(** ** Numeric series *)

(** A scalar produced by a reduction; [None] is NaN. *)
Definition scalar : Type := option Q.

(** The non-missing cells, in order ([skipna=True]). *)
Definition present {A} (l : list (option A)) : list A := omap id l.

Definition q_sum (l : list Q) : Q := foldr Qplus 0%Q l.
Definition q_max (a b : Q) : Q := if Qle_bool a b then b else a.

(** [series.mean()]: NaN when no cell is present. *)
Definition series_mean (l : list (option Q)) : scalar :=
  match present l with
  | [] => None
  | xs => Some (q_sum xs / inject_Z (Z.of_nat (length xs)))%Q
  end.

(** [series.max()]: NaN when no cell is present. *)
Definition series_max (l : list (option Q)) : scalar :=
  match present l with
  | [] => None
  | x :: xs => Some (foldl q_max x xs)
  end.

Definition col_mean (c : column) : result scalar :=
  match c with
  | NumCol l => inr (series_mean l)
  | _ => inl TypeError
  end.

Definition col_max (c : column) : result scalar :=
  match c with
  | NumCol l => inr (series_max l)
  | _ => inl TypeError
  end.

(** [series * series], NaN-propagating *)
Definition num_mul (c1 c2 : column) : result column :=
  match c1, c2 with
  | NumCol l1, NumCol l2 =>
      inr (NumCol (zip_with (fun a b =>
                     match a, b with
                     | Some x, Some y => Some (x * y)%Q
                     | _, _ => None
                     end) l1 l2))
  | _, _ => inl TypeError
  end.

(** [series / k] and [series * k] for a number [k] *)
Definition num_div_scalar (c : column) (k : Q) : result column :=
  match c with
  | NumCol l => inr (NumCol ((fun cell : option Q =>
                                (fun x => x / k)%Q <$> cell) <$> l))
  | _ => inl TypeError
  end.

Definition num_mul_scalar (c : column) (k : Q) : result column :=
  match c with
  | NumCol l => inr (NumCol ((fun cell : option Q =>
                                (fun x => x * k)%Q <$> cell) <$> l))
  | _ => inl TypeError
  end.

(** [x > k] on a scalar: a comparison with NaN is [False]. *)
Definition scalar_gt (x : scalar) (k : Q) : bool :=
  match x with
  | Some v => negb (Qle_bool v k)
  | None => false
  end.

(** ** Mesh configuration (lines 39-44, 51) *)

Definition SCREEN_MESH_CAPACITY : gmap string Z :=
  <["API 100" := 250]> (<["API 140" := 200]> (<["API 170" := 160]>
  (<["API 200" := 120]> ∅))).

(** [SCREEN_MESH_CAPACITY[df_mesh_type]] *)
Definition mesh_lookup (mesh_type : string) : result Z :=
  match SCREEN_MESH_CAPACITY !! mesh_type with
  | Some c => inr c
  | None => inl (KeyError [mesh_type])
  end.

(** ** Metric derivation (lines 67-69) *)

(** The condition of line 67. *)
Definition derive_guard (df : DataFrame) : bool :=
  negb (has_col df UTIL) && has_col df WOB && has_col df FLOW.

Definition derive (mesh_capacity : Z) (df : DataFrame) : result DataFrame :=
  if derive_guard df then
    try! w := getitem df WOB in
    try! f := getitem df FLOW in
    try! wf := num_mul w f in
    try! solids := num_div_scalar wf 100 in
    let df1 := <[SOLIDS := solids]> df in
    try! s := getitem df1 SOLIDS in
    try! ratio := num_div_scalar s (inject_Z mesh_capacity) in
    try! util := num_mul_scalar ratio 100 in
    inr (<[UTIL := util]> df1)
  else inr df.

(** ** KPI reductions (lines 73-75) *)

Definition kpis (df : DataFrame) : result (scalar * scalar * scalar) :=
  try! avg_util :=
    (if has_col df UTIL then try! c := getitem df UTIL in col_mean c
     else inr (Some 0%Q)) in
  try! avg_flow :=
    (if has_col df FLOW then try! c := getitem df FLOW in col_mean c
     else inr (Some 0%Q)) in
  try! shaker_max :=
    (if has_col df SHAKER3 then try! c := getitem df SHAKER3 in col_max c
     else inr (Some 0%Q)) in
  inr (avg_util, avg_flow, shaker_max).

(** ** Daily aggregation (lines 99-105) *)

(** A group key: one cell of the column the frame is grouped by. *)
Inductive key :=
| DayKey (d : Z)
| TimeKey (t : Z)
| StrKey (s : string)
| NumKey (q : Q).

Definition key_rank (k : key) : Z :=
  match k with DayKey _ => 0 | TimeKey _ => 1 | StrKey _ => 2 | NumKey _ => 3 end.

(** The order in which [groupby] lists its groups.  A column has a single
    dtype, so two keys of one frame always share their constructor. *)
Definition key_compare (a b : key) : comparison :=
  match a, b with
  | DayKey x, DayKey y => x ?= y
  | TimeKey x, TimeKey y => x ?= y
  | StrKey x, StrKey y => String.compare x y
  | NumKey x, NumKey y => Qcompare x y
  | _, _ => key_rank a ?= key_rank b
  end.

Definition col_keys (c : column) : list (option key) :=
  match c with
  | DateCol l => (fun cell : option Z => DayKey <$> cell) <$> l
  | TimeCol l => (fun cell : option Z => TimeKey <$> cell) <$> l
  | StrCol l => (fun cell : option string => StrKey <$> cell) <$> l
  | NumCol l => (fun cell : option Q => NumKey <$> cell) <$> l
  end.

(** Insert a key into an ascending list without duplicates. *)
Fixpoint insert_key {K} (cmp : K -> K -> comparison) (k : K) (l : list K)
  : list K :=
  match l with
  | [] => [k]
  | x :: l' =>
      match cmp k x with
      | Eq => l
      | Lt => k :: l
      | Gt => x :: insert_key cmp k l'
      end
  end.

(** The distinct keys of a grouped column, ascending; missing cells are
    dropped ([dropna=True]). *)
Definition group_keys {K} (cmp : K -> K -> comparison) (ks : list (option K))
  : list K :=
  foldr (fun cell acc =>
           match cell with
           | Some k => insert_key cmp k acc
           | None => acc
           end) [] ks.

(** The cells of a value column on the rows of group [k]. *)
Definition group_cells (k : key) (keys : list (option key))
    (vals : list (option Q)) : list (option Q) :=
  omap (fun p : option key * option Q =>
          match p.1 with
          | Some k' => match key_compare k k' with Eq => Some p.2 | _ => None end
          | None => None
          end) (zip keys vals).

Definition numeric (c : column) : result (list (option Q)) :=
  match c with
  | NumCol l => inr l
  | _ => inl TypeError
  end.

Record DailySummary := {
  ds_date : key;
  avg_utilization : scalar;
  avg_flow : scalar;
  avg_shaker3 : scalar;
  max_shaker3 : scalar;
  exceeds_threshold : bool
}.

(** [df.groupby('Date').agg({...}).reset_index()] with the flag of line 105.
    [groupby] raises [KeyError] on a missing key column, [agg] on missing
    value columns. *)
Definition daily_summary (util_threshold : Z) (df : DataFrame)
  : result (list DailySummary) :=
  try! by_col := getitem df DATE in
  let missing := filter (fun c => has_col df c = false) [UTIL; FLOW; SHAKER3] in
  match missing with
  | _ :: _ => inl (KeyError missing)
  | [] =>
      try! cu := getitem df UTIL in
      try! u := numeric cu in
      try! cf := getitem df FLOW in
      try! f := numeric cf in
      try! cs := getitem df SHAKER3 in
      try! s := numeric cs in
      let keys := col_keys by_col in
      inr ((fun k =>
              let avg := series_mean (group_cells k keys u) in
              {| ds_date := k;
                 avg_utilization := avg;
                 avg_flow := series_mean (group_cells k keys f);
                 avg_shaker3 := series_mean (group_cells k keys s);
                 max_shaker3 := series_max (group_cells k keys s);
                 exceeds_threshold := scalar_gt avg (inject_Z util_threshold) |})
           <$> group_keys key_compare keys)
  end.

(** ** Advisory rules (lines 132-150) *)

Inductive tier := Overload | HighThroughput | Normal | Insufficient.

(** The text shown for each tier (without its leading pictogram). *)
Definition message (t : tier) : string :=
  match t with
  | Overload => "Model Insight: Likely overload - Recommend checking shaker alignment and replacing screens."
  | HighThroughput => "High mud throughput - Monitor cuttings return and check screens for blinding."
  | Normal => "Model Insight: Conditions appear normal. Maintain standard checks."
  | Insufficient => "Not enough features available for ML advisory. Upload full dataset."
  end.

Definition smart_advisory (df : DataFrame) (avg_util shaker_max avg_flow : scalar)
  : tier :=
  if issubset [UTIL; SHAKER3; FLOW] df then
    if scalar_gt avg_util 85 && scalar_gt shaker_max 95 then Overload
    else if scalar_gt avg_util 75 && scalar_gt avg_flow 600 then HighThroughput
    else Normal
  else Insufficient.

(** ** The script: Streamlit calls and uncaught exceptions *)

Inductive ui :=
| st_error_timestamp (e : exn)                  (* line 65 *)
| st_metric (label : string) (value : scalar)   (* lines 77-79 *)
| chart_shakers                                 (* line 91 *)
| chart_flow                                    (* line 96 *)
| chart_daily (daily_avg : list DailySummary)   (* lines 110-112 *)
| chart_box                                     (* lines 114-115 *)
| st_warning_missing (e : exn)                  (* line 118 *)
| st_columns (labels : gset string)             (* line 119 *)
| st_dataframe (df : DataFrame)                 (* line 123 *)
| st_info_advisory (t : tier)                   (* lines 148, 150 *)
| st_info_upload.                               (* line 157 *)

(** A piece of the script: it extends the log of calls made so far and
    either returns a value or stops with an uncaught exception. *)
Definition script (A : Type) : Type := list ui -> list ui * result A.

Definition sret {A} (a : A) : script A := fun log => (log, inr a).

Definition sbind {A B} (m : script A) (f : A -> script B) : script B :=
  fun log =>
    match m log with
    | (log', inl e) => (log', inl e)
    | (log', inr a) => f a log'
    end.

Definition emit (u : ui) : script unit := fun log => (log ++ [u], inr tt).

Definition raise {A} (e : exn) : script A := fun log => (log, inl e).

Definition lift {A} (r : result A) : script A := fun log => (log, r).

(** [try: m / except <catches> as e: h e] *)
Definition try_except {A} (m : script A) (catches : exn -> bool)
    (h : exn -> script A) : script A :=
  fun log =>
    match m log with
    | (log', inl e) => if catches e then h e log' else (log', inl e)
    | (log', inr a) => (log', inr a)
    end.

Notation "'do!' x := m 'in' k" := (sbind m (fun x => k))
  (at level 10, x name, m at level 100, k at level 200).
Notation "'exec!' m 'in' k" := (sbind m (fun _ => k))
  (at level 10, m at level 100, k at level 200).

Definition any_Exception (e : exn) : bool := true.

Definition is_KeyError (e : exn) : bool :=
  match e with KeyError _ => true | _ => false end.

(** Lines 85-96.  Neither chart is guarded against a missing [Timestamp]
    column: line 87 indexes the frame with it, line 95 hands its label to
    plotly, which rejects a label that is not a column. *)
Definition charts (df : DataFrame) : script unit :=
  exec! (if issubset [SHAKER1; SHAKER2; SHAKER3] df then
           exec! lift (getitem df TIMESTAMP) in
           exec! lift (getitem df SHAKER1) in
           exec! lift (getitem df SHAKER2) in
           exec! lift (getitem df SHAKER3) in
           emit chart_shakers
         else sret tt) in
  if has_col df FLOW then
    if has_col df TIMESTAMP then emit chart_flow
    else raise (ValueError TIMESTAMP)
  else sret tt.

(** Lines 98-119. *)
Definition daily_block (util_threshold : Z) (df : DataFrame) : script unit :=
  try_except
    (do! daily_avg := lift (daily_summary util_threshold df) in
     exec! emit (chart_daily daily_avg) in
     emit chart_box)
    is_KeyError
    (fun e =>
       exec! emit (st_warning_missing e) in
       emit (st_columns (dom df))).

(** Lines 131-152.  The imports of lines 127-128 are taken to succeed; the
    rule block compares numbers only, so the handler of line 151 is never
    entered. *)
Definition advisory_block (df : DataFrame) (avg_util shaker_max avg_flow : scalar)
  : script unit :=
  emit (st_info_advisory (smart_advisory df avg_util shaker_max avg_flow)).

(** Lines 67-152: everything after the timestamp block. *)
Definition pipeline (mesh_capacity util_threshold : Z) (df : DataFrame)
  : script unit :=
  do! df := lift (derive mesh_capacity df) in
  do! k := lift (kpis df) in
  let '(avg_util, avg_flow, shaker_max) := k in
  exec! emit (st_metric "Avg Utilization" avg_util) in
  exec! emit (st_metric "Avg Flow Rate" avg_flow) in
  exec! emit (st_metric "Max SHKR3" shaker_max) in
  exec! charts df in
  exec! daily_block util_threshold df in
  exec! emit (st_dataframe df) in
  advisory_block df avg_util shaker_max avg_flow.

Section Script.
Context `{Pandas}.

(** Lines 60-65: on any exception the error is shown and the frame is left
    as it was read. *)
Definition timestamp_block (df : DataFrame) : script DataFrame :=
  try_except (lift (normalize df)) any_Exception
    (fun e => exec! emit (st_error_timestamp e) in sret df).

(** Lines 50-157 for one upload. *)
Definition dashboard (df_mesh_type : string) (util_threshold : Z)
    (uploaded_file : option DataFrame) : script unit :=
  do! mesh_capacity := lift (mesh_lookup df_mesh_type) in
  match uploaded_file with
  | Some df0 =>
      do! df := timestamp_block df0 in
      pipeline mesh_capacity util_threshold df
  | None => emit st_info_upload
  end.

(** One run on an uploaded frame: the calls made and how the script ended. *)
Definition run (df_mesh_type : string) (util_threshold : Z) (df0 : DataFrame)
  : list ui * result unit :=
  dashboard df_mesh_type util_threshold (Some df0) [].

End Script.

(** ** Reference instances of the library

    [strict_parse] accepts exactly the zero-padded form
    [YYYY/MM/DD HH:MM:SS] the two input columns are named after.
    [argsort_by] sorts the (position, value) pairs with a merge sort under a
    given order on pairs; [by_value] and [by_value_then_later] are two such
    orders, which differ on equal values only. *)

Definition digit (a : ascii) : option Z :=
  let n := Z.of_N (N_of_ascii a) in
  if (48 <=? n) && (n <=? 57) then Some (n - 48) else None.

Definition two_digits (a b : ascii) : option Z :=
  x ← digit a; y ← digit b; Some (10 * x + y).

Definition is_leap (y : Z) : bool :=
  ((y mod 4 =? 0) && negb (y mod 100 =? 0)) || (y mod 400 =? 0).

Definition days_in_month (y m : Z) : Z :=
  if m =? 2 then (if is_leap y then 29 else 28)
  else if (m =? 4) || (m =? 6) || (m =? 9) || (m =? 11) then 30
  else 31.

(** Days from 1970-01-01 to the given civil date. *)
Definition days_from_civil (y m d : Z) : Z :=
  let y' := if m <=? 2 then y - 1 else y in
  let era := y' / 400 in
  let yoe := y' - era * 400 in
  let doy := (153 * (if 2 <? m then m - 3 else m + 9) + 2) / 5 + d - 1 in
  let doe := yoe * 365 + yoe / 4 - yoe / 100 + doy in
  era * 146097 + doe - 719468.

Definition strict_parse (s : string) : option Z :=
  match list_ascii_of_string s with
  | [y1; y2; y3; y4; p1; m1; m2; p2; d1; d2; p3; h1; h2; p4; n1; n2; p5; s1; s2] =>
      if bool_decide ([p1; p2; p3; p4; p5] = ["/"; "/"; " "; ":"; ":"]%char) then
        yh ← two_digits y1 y2; yl ← two_digits y3 y4;
        mo ← two_digits m1 m2; dd ← two_digits d1 d2;
        hh ← two_digits h1 h2; mi ← two_digits n1 n2; ss ← two_digits s1 s2;
        let y := 100 * yh + yl in
        if (1 <=? mo) && (mo <=? 12) && (1 <=? dd) && (dd <=? days_in_month y mo)
           && (hh <? 24) && (mi <? 60) && (ss <? 60)
        then Some (days_from_civil y mo dd * ns_per_day
                   + ((hh * 60 + mi) * 60 + ss) * 1000000000)
        else None
      else None
  | _ => None
  end.

(** Ascending by value; among equal values whatever the merge sort yields. *)
Definition by_value (p q : nat * Z) : Prop := p.2 <= q.2.

(** Ascending by value; among equal values the later position first. *)
Definition by_value_then_later (p q : nat * Z) : Prop :=
  p.2 < q.2 \/ (p.2 = q.2 /\ (q.1 <= p.1)%nat).

#[global] Instance by_value_dec p q : Decision (by_value p q).
Proof. unfold by_value. apply _. Defined.

#[global] Instance by_value_then_later_dec p q : Decision (by_value_then_later p q).
Proof. unfold by_value_then_later. apply _. Defined.

Definition argsort_by (R : relation (nat * Z)) `{forall p q, Decision (R p q)}
    (l : list Z) : list nat :=
  fst <$> merge_sort R (imap pair l).

Definition reference_pandas : Pandas :=
  {| parse_datetime := strict_parse; argsort := argsort_by by_value |}.

(** ** What a run shows *)

(** The advisory tiers shown, the daily tables charted, the KPI values
    displayed and the timestamp errors reported, each in order. *)
Definition advisories (log : list ui) : list tier :=
  omap (fun u => match u with st_info_advisory t => Some t | _ => None end) log.

Definition daily_tables (log : list ui) : list (list DailySummary) :=
  omap (fun u => match u with chart_daily rows => Some rows | _ => None end) log.

Definition metrics (log : list ui) : list (string * scalar) :=
  omap (fun u => match u with st_metric l v => Some (l, v) | _ => None end) log.

Definition timestamp_errors (log : list ui) : list exn :=
  omap (fun u => match u with st_error_timestamp e => Some e | _ => None end) log.

(** [m] is the mean of the values [xs]: NaN exactly when there is none. *)
Definition is_mean (xs : list Q) (m : scalar) : Prop :=
  match m with
  | None => xs = []
  | Some v => xs <> [] /\ (v * inject_Z (Z.of_nat (length xs)) == q_sum xs)%Q
  end.

(** [m] is the greatest of the values [xs]: NaN exactly when there is none. *)
Definition is_max (xs : list Q) (m : scalar) : Prop :=
  match m with
  | None => xs = []
  | Some v => v ∈ xs /\ forall x, x ∈ xs -> (x <= v)%Q
  end.

(** Events that are neither a KPI, nor an advisory, nor a timestamp error,
    nor a daily table. *)
Definition quiet (evs : list ui) : Prop :=
  advisories evs = [] /\ daily_tables evs = [] /\ metrics evs = []
  /\ timestamp_errors evs = [].

(** The order [sort_values] leaves the timestamps in: ascending, missing
    ones last. *)
Definition ts_le (a b : option Z) : Prop :=
  match a, b with
  | Some x, Some y => x <= y
  | _, None => True
  | None, Some _ => False
  end.

(** The sort keeps tied rows in their input order: [idx] lists the input
    positions in output order. *)
Definition keeps_tie_order (ts : list (option Z)) (idx : list nat) : Prop :=
  forall p q i j : nat,
    (p < q)%nat -> idx !! p = Some i -> idx !! q = Some j ->
    ts !! i = ts !! j -> (i < j)%nat.

(** ** Sample datasets *)

(** Two readings with a text in the date column that is no date. *)
Definition bad_date_df : DataFrame :=
  <[COL_DATE := StrCol [Some "2024/01/01"; Some "not-a-date"]]>
  (<[COL_TIME := StrCol [Some "10:00:00"; Some "10:05:00"]]> ∅).

(** The same two readings with a flow-rate column. *)
Definition bad_date_flow_df : DataFrame :=
  <[FLOW := NumCol [Some 400%Q; Some 300%Q]]> bad_date_df.

(** Three readings over two days with every sensor column. *)
Definition full_df : DataFrame :=
  <[COL_DATE := StrCol [Some "2024/01/02"; Some "2024/01/01"; Some "2024/01/02"]]>
  (<[COL_TIME := StrCol [Some "10:00:00"; Some "09:00:00"; Some "11:00:00"]]>
  (<[WOB := NumCol [Some 50%Q; Some 40%Q; Some 30%Q]]>
  (<[FLOW := NumCol [Some 400%Q; Some 300%Q; Some 400%Q]]>
  (<[SHAKER3 := NumCol [Some 96%Q; Some 30%Q; None]]> ∅)))).

(** The same readings without the shaker-3 column. *)
Definition no_shaker3_df : DataFrame := delete SHAKER3 full_df.

(** The same readings without the flow-rate column, utilisation supplied. *)
Definition no_flow_df : DataFrame :=
  <[UTIL := NumCol [Some 90%Q; Some 70%Q; Some 80%Q]]> (delete FLOW full_df).

(** 2024-01-01 10:00:00, in nanoseconds since the epoch. *)
Definition tied_instant : Z := 1704103200000000000.

(** Two readings at the same instant, told apart by their flow rate. *)
Definition tied_df : DataFrame :=
  <[COL_DATE := StrCol [Some "2024/01/01"; Some "2024/01/01"]]>
  (<[COL_TIME := StrCol [Some "10:00:00"; Some "10:00:00"]]>
  (<[FLOW := NumCol [Some 1%Q; Some 2%Q]]> ∅)).

(** Seventeen readings at the same instant, told apart by their flow rate,
    which counts the rows in input order. *)
Definition tied_run_df : DataFrame :=
  <[COL_DATE := StrCol (replicate 17 (Some "2024/01/01"))]>
  (<[COL_TIME := StrCol (replicate 17 (Some "10:00:00"))]>
  (<[FLOW := NumCol [Some 1%Q; Some 2%Q; Some 3%Q; Some 4%Q; Some 5%Q; Some 6%Q;
                     Some 7%Q; Some 8%Q; Some 9%Q; Some 10%Q; Some 11%Q;
                     Some 12%Q; Some 13%Q; Some 14%Q; Some 15%Q; Some 16%Q;
                     Some 17%Q]]> ∅)).

(** A normalised frame of two days whose first day averages exactly 80. *)
Definition two_day_df : DataFrame :=
  <[DATE := DateCol [Some 19723; Some 19723; Some 19724; None]]>
  (<[UTIL := NumCol [Some 70%Q; Some 90%Q; Some 81%Q; Some 99%Q]]>
  (<[FLOW := NumCol [Some 500%Q; None; Some 650%Q; Some 1%Q]]>
  (<[SHAKER3 := NumCol [Some 96%Q; Some 30%Q; None; Some 2%Q]]> ∅))).

(** ** Notions used by the further properties *)

(** A scalar is defined and lies above [k]. *)
Definition above (x : scalar) (k : Q) : Prop := exists v, x = Some v /\ (k < v)%Q.

(** The column is a numeric column, or the frame does not have it. *)
Definition numeric_or_absent (df : DataFrame) (label : string) : Prop :=
  match df !! label with
  | None | Some (NumCol _) => True
  | Some _ => False
  end.

(** What lines 67-152 may add to the log, given how they end. *)
Definition pipeline_shape (evs : list ui) (r : result unit) : Prop :=
  timestamp_errors evs = []
  /\ (length (daily_tables evs) <= 1)%nat
  /\ (metrics evs = [] \/
      exists u f s, metrics evs = [("Avg Utilization"%string, u);
                                   ("Avg Flow Rate"%string, f);
                                   ("Max SHKR3"%string, s)])
  /\ (forall e, r = inl e -> advisories evs = [] /\ daily_tables evs = [])
  /\ (r = inr tt -> length (metrics evs) = 3%nat /\
        exists t, advisories evs = [t] /\ last evs = Some (st_info_advisory t)).

(** A daily row, and a call, with the threshold flags blanked. *)
Definition unflag (r : DailySummary) : DailySummary :=
  {| ds_date := ds_date r;
     avg_utilization := avg_utilization r;
     avg_flow := avg_flow r;
     avg_shaker3 := avg_shaker3 r;
     max_shaker3 := max_shaker3 r;
     exceeds_threshold := false |}.

Definition unflag_ui (u : ui) : ui :=
  match u with
  | chart_daily rows => chart_daily (unflag <$> rows)
  | _ => u
  end.

(** The cells of a value column on the rows that have a date. *)
Definition dated_cells (days : list (option Z)) (vals : list (option Q))
  : list (option Q) :=
  omap (fun p : option Z * option Q =>
          match p.1 with Some _ => Some p.2 | None => None end) (zip days vals).

(** The cells of a value column on the rows of day [d]. *)
Definition day_cells (d : Z) (days : list (option Z)) (vals : list (option Q))
  : list (option Q) :=
  group_cells (DayKey d) (col_keys (DateCol days)) vals.

(** Three readings, one without weight on bit, and no utilisation column. *)
Definition derive_df : DataFrame :=
  <[WOB := NumCol [Some 50%Q; None; Some 30%Q]]>
  (<[FLOW := NumCol [Some 400%Q; Some 300%Q; Some 200%Q]]> ∅).

(** The readings of [full_df] with a utilisation column that has no value. *)
Definition blank_util_df : DataFrame :=
  <[UTIL := NumCol [None; None; None]]> full_df.

(** * Properties *)

(** ** Columns, comparisons and the mesh table *)

Lemma has_col_true (df : DataFrame) k : has_col df k = true <-> is_Some (df !! k).
Proof. unfold has_col. apply bool_decide_eq_true. Qed.

Lemma has_col_false (df : DataFrame) k : has_col df k = false <-> df !! k = None.
Proof.
  unfold has_col. rewrite bool_decide_eq_false, eq_None_not_Some. done.
Qed.

Lemma scalar_gt_Some v k : scalar_gt (Some v) k = true <-> (k < v)%Q.
Proof.
  simpl. rewrite negb_true_iff. split.
  - intros Hle. apply Qnot_le_lt. intros Hc. apply Qle_bool_iff in Hc. congruence.
  - intros Hlt. destruct (Qle_bool v k) eqn:E; [|done].
    apply Qle_bool_iff in E. exfalso. by apply (Qlt_not_le k v).
Qed.

(** C10.  Every capacity of the mesh table is one of the four listed
    entries and is strictly positive; so whichever mesh type is selected, the
    lookup of line 51 succeeds and the divisor of line 69 is not zero. *)
Theorem mesh_capacity_positive (label : string) (c : Z) :
  SCREEN_MESH_CAPACITY !! label = Some c ->
  (label, c) ∈ [("API 100", 250); ("API 140", 200); ("API 170", 160); ("API 200", 120)]
  /\ 0 < c
  /\ mesh_lookup label = inr c
  /\ ~ (inject_Z c == 0)%Q.
Proof.
  intros Hl.
  assert (Hin : (label, c) ∈ [("API 100", 250); ("API 140", 200);
                              ("API 170", 160); ("API 200", 120)]).
  { unfold SCREEN_MESH_CAPACITY in Hl.
    repeat (rewrite lookup_insert in Hl; case_decide;
            [simplify_eq; set_solver|]).
    by rewrite lookup_empty in Hl. }
  assert (Hpos : 0 < c).
  { set_unfold in Hin. destruct Hin as [?|[?|[?|[?|[]]]]]; simplify_eq; lia. }
  repeat split; try done.
  - unfold mesh_lookup. by rewrite Hl.
  - unfold Qeq. simpl. lia.
Qed.

Lemma mesh_capacity_positive_witness :
  SCREEN_MESH_CAPACITY !! "API 140"%string = Some 200
  /\ 0 < 200 /\ ~ (inject_Z 200 == 0)%Q.
Proof.
  split; [reflexivity|].
  destruct (mesh_capacity_positive "API 140" 200) as (_ & Hpos & _ & Hnz);
    [reflexivity|].
  by split.
Defined.

Example mesh_table_entries :
  SCREEN_MESH_CAPACITY !! "API 100"%string = Some 250
  /\ SCREEN_MESH_CAPACITY !! "API 140"%string = Some 200
  /\ SCREEN_MESH_CAPACITY !! "API 170"%string = Some 160
  /\ SCREEN_MESH_CAPACITY !! "API 200"%string = Some 120.
Proof. by split_and!. Qed.

(** ** Metric derivation *)

Lemma derive_guard_false cap df : derive_guard df = false -> derive cap df = inr df.
Proof. unfold derive. by intros ->. Qed.

Lemma derive_guard_true cap df :
  derive_guard df = true ->
  (exists e, derive cap df = inl e) \/
  (exists solids util,
     derive cap df = inr (<[UTIL := util]> (<[SOLIDS := solids]> df))).
Proof.
  unfold derive. intros ->.
  destruct (getitem df WOB) as [e|w]; simpl; [by eauto|].
  destruct (getitem df FLOW) as [e|f]; simpl; [by eauto|].
  destruct (num_mul w f) as [e|wf]; simpl; [by eauto|].
  destruct (num_div_scalar wf 100) as [e|solids]; simpl; [by eauto|].
  destruct (getitem (<[SOLIDS:=solids]> df) SOLIDS) as [e|s]; simpl; [by eauto|].
  destruct (num_div_scalar s (inject_Z cap)) as [e|ratio]; simpl; [by eauto|].
  destruct (num_mul_scalar ratio 100) as [e|util]; simpl; [by eauto|].
  right. by exists solids, util.
Qed.

Lemma derive_supplied cap (df : DataFrame) :
  is_Some (df !! UTIL) -> derive cap df = inr df.
Proof.
  intros Hu. apply derive_guard_false. unfold derive_guard.
  apply has_col_true in Hu. by rewrite Hu.
Qed.

Lemma derive_other_columns cap (df df' : DataFrame) k :
  derive cap df = inr df' -> k <> UTIL -> k <> SOLIDS -> df' !! k = df !! k.
Proof.
  intros Hd Hu Hs. destruct (derive_guard df) eqn:Hg.
  - destruct (derive_guard_true cap df Hg) as [[e He]|(solids & util & He)];
      rewrite He in Hd; simplify_eq.
    by rewrite !lookup_insert_ne.
  - rewrite (derive_guard_false cap df Hg) in Hd. by simplify_eq.
Qed.

(** C3.  When the frame already has a utilisation column, the derivation
    returns the frame as it is: the supplied utilisation is unchanged and no
    solids-volume-rate column is computed or added. *)
Theorem derive_keeps_supplied_utilization cap (df : DataFrame) :
  is_Some (df !! UTIL) ->
  derive cap df = inr df
  /\ forall df', derive cap df = inr df' ->
       df' !! UTIL = df !! UTIL /\ df' !! SOLIDS = df !! SOLIDS.
Proof.
  intros Hu. rewrite (derive_supplied cap df Hu). split; [done|].
  intros df' Heq. by simplify_eq.
Qed.

Lemma derive_keeps_supplied_utilization_witness :
  is_Some (two_day_df !! UTIL)
  /\ derive 200 two_day_df = inr two_day_df
  /\ two_day_df !! SOLIDS = None.
Proof.
  assert (Hu : is_Some (two_day_df !! UTIL)) by (by eexists).
  split; [exact Hu|]. split; [|reflexivity].
  apply (derive_keeps_supplied_utilization 200 two_day_df Hu).
Defined.

(** C8.  Deriving twice gives what deriving once gives, also when the run
    stops at a type error and also when the second pass is given another
    mesh capacity: once the utilisation column exists it is never
    recomputed. *)
Theorem derive_idempotent cap cap' (df : DataFrame) :
  rbind (derive cap df) (derive cap') = derive cap df.
Proof.
  destruct (derive_guard df) eqn:Hg.
  - destruct (derive_guard_true cap df Hg) as [[e ->]|(solids & util & ->)];
      [done|]. simpl.
    apply derive_supplied. rewrite lookup_insert_eq. by eexists.
  - rewrite (derive_guard_false cap df Hg). simpl.
    by apply derive_guard_false.
Qed.

(** The derivation example of the specification: weight on bit 50, flow
    rate 400 and capacity 200 give a solids rate of 200 and a utilisation of
    100. *)
Example derive_example :
  let df : DataFrame :=
    <[WOB := NumCol [Some 50%Q]]> (<[FLOW := NumCol [Some 400%Q]]> ∅) in
  exists s u,
    derive 200 df
    = inr (<[UTIL := NumCol [Some u]]> (<[SOLIDS := NumCol [Some s]]> df))
    /\ (s == 200)%Q /\ (u == 100)%Q.
Proof. eexists _, _. split; [reflexivity|]. by split. Qed.

(** ** Advisory rules *)

Lemma issubset_required (df : DataFrame) :
  issubset [UTIL; SHAKER3; FLOW] df = true <->
  is_Some (df !! UTIL) /\ is_Some (df !! SHAKER3) /\ is_Some (df !! FLOW).
Proof.
  unfold issubset. simpl. rewrite !andb_true_iff, !has_col_true. tauto.
Qed.

(** C2.  With the three required columns available, an average utilisation
    above 85 together with a shaker-3 peak above 95 gives tier Overload
    whatever the flow is; so 90 / 96 / 650, which also meets the
    high-throughput conditions, is classified Overload. *)
Theorem overload_rule_fires_first (df : DataFrame) :
  is_Some (df !! UTIL) -> is_Some (df !! SHAKER3) -> is_Some (df !! FLOW) ->
  (forall (avg_util shaker_max avg_flow : scalar) (u s : Q),
      avg_util = Some u -> shaker_max = Some s ->
      (85 < u)%Q -> (95 < s)%Q ->
      smart_advisory df avg_util shaker_max avg_flow = Overload)
  /\ smart_advisory df (Some 90%Q) (Some 96%Q) (Some 650%Q) = Overload
  /\ scalar_gt (Some 90%Q) 75 && scalar_gt (Some 650%Q) 600 = true.
Proof.
  intros Hu Hs Hf.
  assert (Hsub : issubset [UTIL; SHAKER3; FLOW] df = true)
    by by apply issubset_required.
  assert (Hgen : forall (avg_util shaker_max avg_flow : scalar) (u s : Q),
      avg_util = Some u -> shaker_max = Some s ->
      (85 < u)%Q -> (95 < s)%Q ->
      smart_advisory df avg_util shaker_max avg_flow = Overload).
  { intros ? ? ? u s -> -> Hgu Hgs. unfold smart_advisory. rewrite Hsub.
    apply scalar_gt_Some in Hgu, Hgs. by rewrite Hgu, Hgs. }
  split; [exact Hgen|]. split; [|reflexivity].
  by apply (Hgen _ _ _ 90%Q 96%Q).
Qed.

Lemma overload_rule_fires_first_witness :
  smart_advisory two_day_df (Some 90%Q) (Some 96%Q) (Some 650%Q) = Overload.
Proof.
  destruct (overload_rule_fires_first two_day_df) as (_ & Hex & _);
    [by eexists..|].
  exact Hex.
Defined.

Lemma smart_advisory_insufficient (df : DataFrame)
    (avg_util shaker_max avg_flow : scalar) :
  df !! FLOW = None \/ df !! UTIL = None \/ df !! SHAKER3 = None ->
  smart_advisory df avg_util shaker_max avg_flow = Insufficient.
Proof.
  intros Hmiss. unfold smart_advisory.
  destruct (issubset [UTIL; SHAKER3; FLOW] df) eqn:Hsub; [|done].
  apply issubset_required in Hsub as ([? Hu] & [? Hs] & [? Hf]).
  destruct Hmiss as [?|[?|?]]; congruence.
Qed.

(** ** Daily aggregation: the threshold flag *)

(** C4.  In every row the aggregation produces, the flag is the strict
    comparison of the row's average utilisation with the threshold: an
    average equal to the threshold, or an undefined one, is not flagged. *)
Theorem exceeds_threshold_is_strict thr (df : DataFrame) rows r :
  daily_summary thr df = inr rows -> r ∈ rows ->
  exceeds_threshold r = scalar_gt (avg_utilization r) (inject_Z thr)
  /\ (forall q, avg_utilization r = Some q ->
        (exceeds_threshold r = true <-> (inject_Z thr < q)%Q)
        /\ ((q == inject_Z thr)%Q -> exceeds_threshold r = false))
  /\ (avg_utilization r = None -> exceeds_threshold r = false).
Proof.
  intros Hd Hr.
  assert (Hflag : exceeds_threshold r = scalar_gt (avg_utilization r) (inject_Z thr)).
  { unfold daily_summary in Hd.
    destruct (getitem df DATE) as [|by_col]; [done|]. simpl in Hd.
    destruct (filter _ _); [|done].
    destruct (getitem df UTIL) as [|cu]; [done|]. simpl in Hd.
    destruct (numeric cu) as [|u]; [done|]. simpl in Hd.
    destruct (getitem df FLOW) as [|cf]; [done|]. simpl in Hd.
    destruct (numeric cf) as [|f]; [done|]. simpl in Hd.
    destruct (getitem df SHAKER3) as [|cs]; [done|]. simpl in Hd.
    destruct (numeric cs) as [|s]; [done|]. simpl in Hd.
    simplify_eq. apply list_elem_of_fmap in Hr as (k & -> & _). done. }
  split; [done|]. split.
  - intros q Hq. rewrite Hflag, Hq. split; [apply scalar_gt_Some|].
    intros Heq. simpl. apply negb_false_iff, Qle_bool_iff.
    rewrite Heq. apply Qle_refl.
  - intros Hn. by rewrite Hflag, Hn.
Qed.

Lemma exceeds_threshold_is_strict_witness :
  exists rows r,
    daily_summary 80 two_day_df = inr rows /\ r ∈ rows
    /\ ds_date r = DayKey 19723
    /\ (exists q, avg_utilization r = Some q /\ (q == 80)%Q)
    /\ exceeds_threshold r = false.
Proof.
  destruct (daily_summary 80 two_day_df) as [e|rows] eqn:Hd;
    [by vm_compute in Hd|].
  destruct rows as [|r rows]; [by vm_compute in Hd|].
  exists (r :: rows), r.
  assert (Hin : r ∈ r :: rows) by apply list_elem_of_here.
  destruct (exceeds_threshold_is_strict 80 two_day_df (r :: rows) r Hd Hin)
    as (_ & Hq & _).
  vm_compute in Hd. injection Hd as <- <-.
  split_and!; [done..| |].
  - eexists. by split.
  - by apply (Hq (160 # 2)%Q).
Defined.

(** ** The log of a run *)

Lemma advisories_app l1 l2 : advisories (l1 ++ l2) = advisories l1 ++ advisories l2.
Proof. apply omap_app. Qed.
Lemma daily_tables_app l1 l2 :
  daily_tables (l1 ++ l2) = daily_tables l1 ++ daily_tables l2.
Proof. apply omap_app. Qed.
Lemma metrics_app l1 l2 : metrics (l1 ++ l2) = metrics l1 ++ metrics l2.
Proof. apply omap_app. Qed.
Lemma timestamp_errors_app l1 l2 :
  timestamp_errors (l1 ++ l2) = timestamp_errors l1 ++ timestamp_errors l2.
Proof. apply omap_app. Qed.

Lemma charts_log df log log' r :
  charts df log = (log', r) -> exists evs, log' = log ++ evs /\ quiet evs.
Proof.
  unfold charts, sbind, lift, emit, sret, raise. intros Hc.
  repeat case_match; simplify_eq;
    rewrite <- ?(assoc_L (++)); eexists; (split; [try reflexivity|]);
    try (by rewrite (right_id_L [] (++)));
    by repeat split.
Qed.

Lemma daily_block_log thr df log log' r :
  daily_block thr df log = (log', r) ->
  exists evs, log' = log ++ evs
    /\ advisories evs = [] /\ metrics evs = [] /\ timestamp_errors evs = []
    /\ daily_tables evs = match daily_summary thr df with
                          | inr rows => [rows]
                          | inl _ => []
                          end.
Proof.
  unfold daily_block, try_except, sbind, lift, emit. intros Hd.
  destruct (daily_summary thr df) as [e|rows]; simpl in Hd.
  - destruct (is_KeyError e); simplify_eq.
    + rewrite <- (assoc_L (++)). by eexists.
    + exists []. by rewrite (right_id_L [] (++)).
  - simplify_eq. rewrite <- (assoc_L (++)). by eexists.
Qed.

Lemma pipeline_log cap thr df log log' r :
  pipeline cap thr df log = (log', r) ->
  match derive cap df with
  | inl e => log' = log /\ r = inl e
  | inr df' =>
      match kpis df' with
      | inl e => log' = log /\ r = inl e
      | inr (u, f, s) =>
          exists evs,
            log' = log ++ [st_metric "Avg Utilization" u;
                           st_metric "Avg Flow Rate" f;
                           st_metric "Max SHKR3" s] ++ evs
            /\ metrics evs = [] /\ timestamp_errors evs = []
            /\ (daily_tables evs = [] \/
                exists rows, daily_summary thr df' = inr rows
                             /\ daily_tables evs = [rows])
            /\ advisories evs = match r with
                                | inr _ => [smart_advisory df' u s f]
                                | inl _ => []
                                end
      end
  end.
Proof.
  unfold pipeline, sbind at 1, lift at 1. intros Hp.
  destruct (derive cap df) as [e|df']; [by simplify_eq|].
  unfold sbind at 1, lift at 1 in Hp.
  destruct (kpis df') as [e|[[u f] s]]; [by simplify_eq|].
  unfold sbind at 1 2 3, emit at 1 2 3 in Hp. simpl in Hp.
  unfold sbind at 1 in Hp.
  destruct (charts df' _) as [log1 r1] eqn:Hc.
  apply charts_log in Hc as (ev1 & -> & Hq1 & Hq2 & Hq3 & Hq4).
  destruct r1 as [e|[]].
  { simplify_eq. exists ev1. rewrite <- !(assoc_L (++)). simpl.
    repeat split; auto. }
  unfold sbind at 1 in Hp.
  destruct (daily_block thr df' _) as [log2 r2] eqn:Hd.
  apply daily_block_log in Hd as (ev2 & -> & Hd1 & Hd2 & Hd3 & Hd4).
  assert (Hdaily : daily_tables (ev1 ++ ev2) = [] \/
            exists rows, daily_summary thr df' = inr rows
                         /\ daily_tables (ev1 ++ ev2) = [rows]).
  { rewrite daily_tables_app, Hq2, Hd4. simpl.
    destruct (daily_summary thr df'); eauto. }
  destruct r2 as [e|[]].
  { simplify_eq. exists (ev1 ++ ev2). rewrite <- !(assoc_L (++)). simpl.
    rewrite metrics_app, timestamp_errors_app, advisories_app.
    rewrite Hq1, Hq3, Hq4, Hd1, Hd2, Hd3. repeat split; auto. }
  unfold sbind, advisory_block, emit in Hp. simplify_eq.
  exists (ev1 ++ ev2 ++ [st_dataframe df';
                         st_info_advisory (smart_advisory df' u s f)]).
  rewrite <- !(assoc_L (++)). simpl.
  rewrite !metrics_app, !timestamp_errors_app, !advisories_app, !daily_tables_app.
  rewrite Hq1, Hq3, Hq4, Hd1, Hd2, Hd3. simpl.
  rewrite !daily_tables_app in Hdaily. rewrite !(right_id_L [] (++)).
  repeat split; auto.
Qed.

Lemma daily_summary_no_date thr (df : DataFrame) :
  df !! DATE = None -> daily_summary thr df = inl (KeyError [DATE]).
Proof. intros Hd. unfold daily_summary, getitem. by rewrite Hd. Qed.

Lemma pipeline_advisories_insufficient cap thr (df : DataFrame) log log' r :
  df !! FLOW = None \/ df !! SHAKER3 = None ->
  pipeline cap thr df log = (log', r) ->
  advisories log' = advisories log ++ match r with
                                      | inr _ => [Insufficient]
                                      | inl _ => []
                                      end.
Proof.
  intros Hmiss Hp. apply pipeline_log in Hp.
  destruct (derive cap df) as [e|df'] eqn:Hd.
  { destruct Hp as [-> ->]. by rewrite (right_id_L [] (++)). }
  destruct (kpis df') as [e|[[u f] s]].
  { destruct Hp as [-> ->]. by rewrite (right_id_L [] (++)). }
  destruct Hp as (evs & -> & _ & _ & _ & Hadv).
  rewrite !advisories_app. simpl. rewrite Hadv. f_equal.
  destruct r; [done|]. f_equal. apply smart_advisory_insufficient.
  destruct Hmiss as [Hf|Hs].
  - left. by rewrite (derive_other_columns cap df df' FLOW Hd).
  - right; right. by rewrite (derive_other_columns cap df df' SHAKER3 Hd).
Qed.

(** ** Timestamp parsing and the whole run *)

Section Run.
Context `{Pandas}.

Lemma to_datetime_from_first_failure (l : list (option string)) :
  forall (pos i : nat) (raw : string),
    l !! i = Some (Some raw) -> parse_datetime raw = None ->
    exists j raw',
      (j <= i)%nat /\ l !! j = Some (Some raw') /\ parse_datetime raw' = None
      /\ (forall j' s, (j' < j)%nat -> l !! j' = Some (Some s) ->
                       is_Some (parse_datetime s))
      /\ to_datetime_from pos l = inl (ParseError (pos + j) raw').
Proof.
  induction l as [|cell l IH]; intros pos i raw Hi Hraw; [done|].
  destruct cell as [s|].
  - simpl. destruct (parse_datetime s) as [t|] eqn:Hs.
    + destruct i as [|i]; [simpl in Hi; congruence|].
      destruct (IH (S pos) i raw Hi Hraw)
        as (j & raw' & Hle & Hj & Hp & Hbefore & ->).
      exists (S j), raw'. split_and!; [lia|done|done| |].
      * intros [|j'] s' Hlt Hs'; [simpl in Hs'; simplify_eq; by eexists|].
        apply (Hbefore j' s'); [lia|done].
      * simpl. do 2 f_equal. lia.
    + exists 0%nat, s. split_and!; [lia|done|done| |].
      * intros j' s' Hlt. lia.
      * do 2 f_equal. lia.
  - destruct i as [|i]; [done|].
    destruct (IH (S pos) i raw Hi Hraw)
      as (j & raw' & Hle & Hj & Hp & Hbefore & Hto).
    exists (S j), raw'. split_and!; [lia|done|done| |].
    + intros [|j'] s' Hlt Hs'; [done|]. apply (Hbefore j' s'); [lia|done].
    + simpl. rewrite Hto. simpl. do 2 f_equal. lia.
Qed.

Lemma timestamp_block_failure df e log :
  normalize df = inl e ->
  timestamp_block df log = (log ++ [st_error_timestamp e], inr df).
Proof.
  intros Hn. unfold timestamp_block, try_except, lift. rewrite Hn. done.
Qed.

Lemma timestamp_block_success df df' log :
  normalize df = inr df' -> timestamp_block df log = (log, inr df').
Proof.
  intros Hn. unfold timestamp_block, try_except, lift. by rewrite Hn.
Qed.

Lemma run_unfold mesh cap thr df :
  mesh_lookup mesh = inr cap ->
  run mesh thr df =
  match normalize df with
  | inl e => pipeline cap thr df [st_error_timestamp e]
  | inr df' => pipeline cap thr df' []
  end.
Proof.
  intros Hm. unfold run, dashboard, sbind at 1, lift at 1. rewrite Hm.
  unfold sbind at 1. destruct (normalize df) as [e|df'] eqn:Hn.
  - by rewrite (timestamp_block_failure df e [] Hn).
  - by rewrite (timestamp_block_success df df' [] Hn).
Qed.

Lemma normalize_structure df df' :
  normalize df = inr df' ->
  exists s ts,
    date_time_strings df = inr s /\ to_datetime s = inr ts
    /\ df' = <[DATE := DateCol ((fun cell : option Z =>
                                   (fun t => t / ns_per_day) <$> cell)
                                <$> take (nargsort ts) ts)]>
               (col_take (nargsort ts) <$> <[TIMESTAMP := TimeCol ts]> df).
Proof.
  unfold normalize. intros Hn.
  destruct (date_time_strings df) as [|s] eqn:Hs; [done|]. simpl in Hn.
  destruct (to_datetime s) as [|ts] eqn:Hts; [done|]. simpl in Hn.
  unfold sort_values, getitem in Hn. rewrite lookup_insert_eq in Hn.
  simpl in Hn. rewrite lookup_fmap, lookup_insert_eq in Hn. simpl in Hn.
  simplify_eq. by exists s, ts.
Qed.

Lemma normalize_other_columns (df df' : DataFrame) k :
  normalize df = inr df' -> k <> TIMESTAMP -> k <> DATE ->
  exists idx, df' !! k = col_take idx <$> df !! k.
Proof.
  intros Hn Ht Hd. apply normalize_structure in Hn as (s & ts & _ & _ & ->).
  exists (nargsort ts).
  by rewrite lookup_insert_ne, lookup_fmap, lookup_insert_ne.
Qed.

(** C1, as the script behaves.  When some row's date and time text does not
    parse, the run reports the failure of the first such row (its position
    and text) and then goes on instead of stopping: the frame keeps its
    input columns and row order, and lines 67-152 run on it.  If the run
    reaches its end an advisory is shown; a daily table can only appear if
    the upload itself brought a [Date] column. *)
Theorem parse_failure_reported_run_continues
    mesh cap thr (df : DataFrame) (l : list (option string)) i raw :
  mesh_lookup mesh = inr cap ->
  date_time_strings df = inr (StrCol l) ->
  l !! i = Some (Some raw) -> parse_datetime raw = None ->
  exists j raw',
    (j <= i)%nat /\ l !! j = Some (Some raw') /\ parse_datetime raw' = None
    /\ run mesh thr df
       = pipeline cap thr df [st_error_timestamp (ParseError j raw')]
    /\ forall log r, run mesh thr df = (log, r) ->
         timestamp_errors log = [ParseError j raw']
         /\ (r = inr tt -> exists t, advisories log = [t])
         /\ (df !! DATE = None -> daily_tables log = []).
Proof.
  intros Hm Hs Hi Hraw.
  destruct (to_datetime_from_first_failure l 0 i raw Hi Hraw)
    as (j & raw' & Hle & Hj & Hp & _ & Hto).
  exists j, raw'. split_and!; [done..| |].
  - rewrite (run_unfold mesh cap thr df Hm). unfold normalize.
    rewrite Hs. simpl. by rewrite Hto.
  - intros log r Hrun.
    rewrite (run_unfold mesh cap thr df Hm) in Hrun. unfold normalize in Hrun.
    rewrite Hs in Hrun. simpl in Hrun. rewrite Hto in Hrun. simpl in Hrun.
    apply pipeline_log in Hrun.
    destruct (derive cap df) as [e|df'] eqn:Hd.
    { destruct Hrun as [-> ->]. by split_and!. }
    destruct (kpis df') as [e|[[u f] s]].
    { destruct Hrun as [-> ->]. by split_and!. }
    destruct Hrun as (evs & -> & Hmet & Herr & Hday & Hadv).
    rewrite timestamp_errors_app, advisories_app, daily_tables_app.
    simpl. rewrite Herr, Hadv. split_and!; [done| |].
    + intros ->. by eexists.
    + intros Hdate. destruct Hday as [->|(rows & Hrows & _)]; [done|].
      rewrite daily_summary_no_date in Hrows; [done|].
      by rewrite (derive_other_columns cap df df' DATE Hd).
Qed.

(** C5.  When one of the three required columns is missing the rule block
    answers Insufficient whatever the three scalars are, and that is what the
    advisory step shows.  For a whole run on an upload without the flow-rate
    (or the shaker-3) column, the only advisory ever shown is Insufficient,
    and it is shown whenever the run reaches its end. *)
Theorem missing_field_gives_insufficient (df : DataFrame) :
  df !! FLOW = None \/ df !! UTIL = None \/ df !! SHAKER3 = None ->
  (forall avg_util shaker_max avg_flow : scalar,
      smart_advisory df avg_util shaker_max avg_flow = Insufficient)
  /\ (forall (avg_util shaker_max avg_flow : scalar) log,
        advisory_block df avg_util shaker_max avg_flow log
        = (log ++ [st_info_advisory Insufficient], inr tt))
  /\ (df !! FLOW = None \/ df !! SHAKER3 = None ->
      forall mesh thr log r,
        run mesh thr df = (log, r) ->
        advisories log = match r with
                         | inr _ => [Insufficient]
                         | inl _ => []
                         end).
Proof.
  intros Hmiss. split_and!.
  - intros. by apply smart_advisory_insufficient.
  - intros. unfold advisory_block, emit.
    by rewrite smart_advisory_insufficient.
  - intros Hin mesh thr log r Hrun.
    destruct (mesh_lookup mesh) as [e|cap] eqn:Hm.
    { unfold run, dashboard, sbind, lift in Hrun. rewrite Hm in Hrun.
      by simplify_eq. }
    rewrite (run_unfold mesh cap thr df Hm) in Hrun.
    destruct (normalize df) as [e|df'] eqn:Hn.
    + by apply (pipeline_advisories_insufficient cap thr df) in Hrun.
    + apply (pipeline_advisories_insufficient cap thr df') in Hrun; [done|].
      destruct Hin as [Hf|Hs].
      * left. destruct (normalize_other_columns df df' FLOW Hn) as [idx ->];
          [done..|]. by rewrite Hf.
      * right. destruct (normalize_other_columns df df' SHAKER3 Hn) as [idx ->];
          [done..|]. by rewrite Hs.
Qed.

End Run.

Lemma parse_failure_reported_run_continues_witness :
  exists j raw',
    @run reference_pandas "API 140" 80 bad_date_df
    = pipeline 200 80 bad_date_df [st_error_timestamp (ParseError j raw')]
    /\ strict_parse raw' = None.
Proof.
  destruct (@parse_failure_reported_run_continues reference_pandas
              "API 140" 200 80 bad_date_df
              [Some "2024/01/01 10:00:00"; Some "not-a-date 10:05:00"]
              1%nat "not-a-date 10:05:00")
    as (j & raw' & _ & _ & Hraw & Hrun & _);
    [reflexivity | reflexivity | reflexivity | reflexivity |].
  by exists j, raw'.
Defined.

(** C1, as the specification states it, fails: the second row of
    [bad_date_df] does not parse, the failure is reported, and yet the run
    reaches its end and shows an advisory. *)
Lemma bad_timestamp_still_advises :
  let out := @run reference_pandas "API 140" 80 bad_date_df in
  strict_parse "not-a-date 10:05:00" = None
  /\ out.2 = inr tt
  /\ timestamp_errors out.1 = [ParseError 1 "not-a-date 10:05:00"]
  /\ advisories out.1 = [Insufficient].
Proof. by vm_compute. Qed.

(** With a flow-rate column the same failure ends the run at line 95: the
    flow chart asks for the [Timestamp] column that was never added, and no
    advisory is reached. *)
Example bad_timestamp_with_flow_stops_at_chart :
  let out := @run reference_pandas "API 140" 80 bad_date_flow_df in
  out.2 = inl (ValueError TIMESTAMP)
  /\ timestamp_errors out.1 = [ParseError 1 "not-a-date 10:05:00"]
  /\ advisories out.1 = [] /\ daily_tables out.1 = [].
Proof. by vm_compute. Qed.

Lemma missing_field_gives_insufficient_witness :
  no_flow_df !! FLOW = None /\
  advisories (@run reference_pandas "API 140" 80 no_flow_df).1 = [Insufficient].
Proof.
  split; [reflexivity|].
  destruct (@missing_field_gives_insufficient reference_pandas no_flow_df)
    as (_ & _ & Hrun); [left; reflexivity|].
  apply (Hrun (or_introl eq_refl) "API 140" 80 _ (inr tt)).
  vm_compute. reflexivity.
Defined.

(** ** KPI reductions *)

Lemma series_mean_spec l : is_mean (present l) (series_mean l).
Proof.
  unfold series_mean. destruct (present l) as [|x xs] eqn:E; [done|].
  split; [done|].
  assert (Hlen : ~ (inject_Z (Z.of_nat (length (x :: xs))) == 0)%Q).
  { unfold Qeq. simpl. lia. }
  by field.
Qed.

Lemma q_max_cases a b :
  (q_max a b = a /\ (b <= a)%Q) \/ (q_max a b = b /\ (a <= b)%Q).
Proof.
  unfold q_max. destruct (Qle_bool a b) eqn:E.
  - right. split; [done|]. by apply Qle_bool_iff.
  - left. split; [done|]. apply Qlt_le_weak, Qnot_le_lt.
    intros Hle. apply Qle_bool_iff in Hle. congruence.
Qed.

Lemma foldl_q_max_spec xs : forall x,
  foldl q_max x xs ∈ x :: xs /\ forall y, y ∈ x :: xs -> (y <= foldl q_max x xs)%Q.
Proof.
  induction xs as [|z xs IH]; intros x; simpl.
  - split; [apply list_elem_of_here|].
    intros y Hy. apply list_elem_of_singleton in Hy as ->. apply Qle_refl.
  - destruct (IH (q_max x z)) as [Hin Hub].
    assert (Hm : (q_max x z <= foldl q_max (q_max x z) xs)%Q)
      by apply Hub, list_elem_of_here.
    split.
    + apply elem_of_cons in Hin as [Heq|Hin].
      * destruct (q_max_cases x z) as [[Hq _]|[Hq _]].
        -- apply elem_of_cons. left. congruence.
        -- apply elem_of_cons. right. apply elem_of_cons. left.
           congruence.
      * by do 2 apply list_elem_of_further.
    + intros y Hy. apply elem_of_cons in Hy as [->|Hy];
        [|apply elem_of_cons in Hy as [->|Hy]].
      * eapply Qle_trans; [|exact Hm].
        destruct (q_max_cases x z) as [[-> _]|[-> ?]]; [apply Qle_refl|done].
      * eapply Qle_trans; [|exact Hm].
        destruct (q_max_cases x z) as [[-> ?]|[-> _]]; [done|apply Qle_refl].
      * by apply Hub, list_elem_of_further.
Qed.

Lemma series_max_spec l : is_max (present l) (series_max l).
Proof.
  unfold series_max. destruct (present l) as [|x xs]; [done|].
  apply foldl_q_max_spec.
Qed.

Lemma kpi_cases (df : DataFrame) k (red : column -> result scalar) v :
  (if has_col df k then try! c := getitem df k in red c else inr (Some 0%Q))
  = inr v ->
  (df !! k = None /\ v = Some 0%Q) \/ (exists c, df !! k = Some c /\ red c = inr v).
Proof.
  destruct (has_col df k) eqn:Hk.
  - apply has_col_true in Hk as [c Hc]. unfold getitem. rewrite Hc. simpl.
    intros Hr. right. by exists c.
  - apply has_col_false in Hk. intros Hv. left. by simplify_eq.
Qed.

(** C6, as the script behaves.  Each KPI is the mean (the maximum for
    shaker 3) over the cells that are present, NaN when the column has no
    present cell; for a column that is absent from the frame the KPI is the
    number 0, and all three values are displayed. *)
Theorem kpis_over_present_values_zero_when_absent (df : DataFrame)
    (avg_util avg_flow shaker_max : scalar) :
  kpis df = inr (avg_util, avg_flow, shaker_max) ->
  (df !! UTIL = None -> avg_util = Some 0%Q)
  /\ (df !! FLOW = None -> avg_flow = Some 0%Q)
  /\ (df !! SHAKER3 = None -> shaker_max = Some 0%Q)
  /\ (forall l, df !! UTIL = Some (NumCol l) -> is_mean (present l) avg_util)
  /\ (forall l, df !! FLOW = Some (NumCol l) -> is_mean (present l) avg_flow)
  /\ (forall l, df !! SHAKER3 = Some (NumCol l) -> is_max (present l) shaker_max)
  /\ (forall cap thr df0 log r,
        derive cap df0 = inr df -> pipeline cap thr df0 [] = (log, r) ->
        metrics log = [("Avg Utilization", avg_util);
                       ("Avg Flow Rate", avg_flow);
                       ("Max SHKR3", shaker_max)]).
Proof.
  intros Hkp. pose proof Hkp as Hk. unfold kpis in Hk.
  destruct (if has_col df UTIL then _ else _) as [|u] eqn:Hu; [done|].
  simpl in Hk.
  destruct (if has_col df FLOW then _ else _) as [|f] eqn:Hf; [done|].
  simpl in Hk.
  destruct (if has_col df SHAKER3 then _ else _) as [|s] eqn:Hs; [done|].
  simpl in Hk. simplify_eq.
  apply kpi_cases in Hu, Hf, Hs. split_and!.
  - intros Hn. destruct Hu as [[_ ->]|(c & Hc & _)]; [done|congruence].
  - intros Hn. destruct Hf as [[_ ->]|(c & Hc & _)]; [done|congruence].
  - intros Hn. destruct Hs as [[_ ->]|(c & Hc & _)]; [done|congruence].
  - intros l Hl. destruct Hu as [[Hn _]|(c & Hc & Hr)]; [congruence|].
    rewrite Hl in Hc. simplify_eq. simpl in Hr. simplify_eq.
    apply series_mean_spec.
  - intros l Hl. destruct Hf as [[Hn _]|(c & Hc & Hr)]; [congruence|].
    rewrite Hl in Hc. simplify_eq. simpl in Hr. simplify_eq.
    apply series_mean_spec.
  - intros l Hl. destruct Hs as [[Hn _]|(c & Hc & Hr)]; [congruence|].
    rewrite Hl in Hc. simplify_eq. simpl in Hr. simplify_eq.
    apply series_max_spec.
  - intros cap thr df0 log r Hd Hp. apply pipeline_log in Hp.
    rewrite Hd in Hp.
    rewrite Hkp in Hp. destruct Hp as (evs & -> & Hmet & _).
    by rewrite !metrics_app, Hmet.
Qed.

Lemma kpis_over_present_values_zero_when_absent_witness :
  exists avg_util avg_flow shaker_max,
    kpis no_flow_df = inr (avg_util, avg_flow, shaker_max)
    /\ avg_flow = Some 0%Q
    /\ is_max [96%Q; 30%Q] shaker_max.
Proof.
  destruct (kpis no_flow_df) as [e|[[u f] s]] eqn:Hk; [by vm_compute in Hk|].
  exists u, f, s. split; [done|].
  destruct (kpis_over_present_values_zero_when_absent no_flow_df u f s Hk)
    as (_ & Hf & _ & _ & _ & Hs & _).
  split; [by apply Hf|].
  by apply (Hs [Some 96%Q; Some 30%Q; None]).
Defined.

(** C6, as the specification states it, fails: [no_flow_df] has no flow-rate
    column, and the run displays an average flow rate of 0. *)
Lemma absent_flow_reported_as_zero :
  let out := @run reference_pandas "API 140" 80 no_flow_df in
  no_flow_df !! FLOW = None
  /\ out.2 = inr tt
  /\ metrics out.1 !! 1%nat = Some ("Avg Flow Rate"%string, Some 0%Q).
Proof. by vm_compute. Qed.

(** ** Daily aggregation: one row per date *)

Section InsertKey.
Context {K : Type} (cmp : K -> K -> comparison) (lt : relation K).
Hypothesis cmp_spec : forall x y, CompareSpec (x = y) (lt x y) (lt y x) (cmp x y).
Hypothesis lt_trans : forall x y z, lt x y -> lt y z -> lt x z.

Lemma insert_key_elem x k (l : list K) :
  x ∈ insert_key cmp k l <-> x = k \/ x ∈ l.
Proof.
  induction l as [|a l IH]; simpl.
  - rewrite list_elem_of_singleton, elem_of_nil. tauto.
  - destruct (cmp_spec k a) as [->| |].
    + rewrite elem_of_cons. tauto.
    + rewrite !elem_of_cons. tauto.
    + rewrite !elem_of_cons, IH. tauto.
Qed.

Lemma insert_key_sorted k (l : list K) :
  StronglySorted lt l -> StronglySorted lt (insert_key cmp k l).
Proof.
  induction 1 as [|a l Hs IH Hall]; simpl.
  - repeat constructor.
  - destruct (cmp_spec k a) as [->|Hlt|Hgt].
    + by constructor.
    + constructor; [by constructor|]. constructor; [done|].
      eapply Forall_impl; [exact Hall|]. intros y Hy. by eapply lt_trans.
    + constructor; [done|]. apply Forall_forall. intros y Hy.
      apply insert_key_elem in Hy as [->|Hy]; [done|].
      by eapply Forall_forall in Hall.
Qed.

Lemma group_keys_elem k (ks : list (option K)) :
  k ∈ group_keys cmp ks <-> Some k ∈ ks.
Proof.
  induction ks as [|[k'|] ks IH]; simpl.
  - by rewrite !elem_of_nil.
  - rewrite insert_key_elem, elem_of_cons, IH.
    split; intros [?|?]; simplify_eq; auto.
  - rewrite elem_of_cons, IH. split; [auto|]. by intros [?|?].
Qed.

Lemma group_keys_sorted (ks : list (option K)) :
  StronglySorted lt (group_keys cmp ks).
Proof.
  induction ks as [|[k'|] ks IH]; simpl; [constructor| |done].
  by apply insert_key_sorted.
Qed.

End InsertKey.

Lemma insert_key_fmap {A B} (f : A -> B) cmpA cmpB k (l : list A) :
  (forall x y, cmpB (f x) (f y) = cmpA x y) ->
  insert_key cmpB (f k) (f <$> l) = f <$> insert_key cmpA k l.
Proof.
  intros Hc. induction l as [|a l IH]; [done|].
  csimpl. rewrite Hc. destruct (cmpA k a); [done..|].
  csimpl. by rewrite IH.
Qed.

Lemma group_keys_fmap {A B} (f : A -> B) cmpA cmpB (ks : list (option A)) :
  (forall x y, cmpB (f x) (f y) = cmpA x y) ->
  group_keys cmpB ((fun cell : option A => f <$> cell) <$> ks)
  = f <$> group_keys cmpA ks.
Proof.
  intros Hc. induction ks as [|[k|] ks IH]; [done| |done].
  csimpl. rewrite IH. by apply insert_key_fmap.
Qed.

Lemma day_keys_sorted (days : list (option Z)) :
  StronglySorted Z.lt (group_keys Z.compare days).
Proof. apply group_keys_sorted; [apply Z.compare_spec|apply Z.lt_trans]. Qed.

Lemma day_keys_elem d (days : list (option Z)) :
  d ∈ group_keys Z.compare days <-> Some d ∈ days.
Proof. apply (group_keys_elem Z.compare Z.lt). apply Z.compare_spec. Qed.

Lemma strictly_ascending_NoDup (l : list Z) : StronglySorted Z.lt l -> NoDup l.
Proof.
  induction 1 as [|a l Hs IH Hall]; constructor; [|done].
  intros Hin. eapply Forall_forall in Hall; [|exact Hin]. lia.
Qed.

Lemma key_compare_day x y : key_compare (DayKey x) (DayKey y) = (x ?= y).
Proof. done. Qed.

Lemma missing_columns_nil (df : DataFrame) (labels : list string) :
  Forall (fun c => is_Some (df !! c)) labels ->
  filter (fun c => has_col df c = false) labels = [].
Proof.
  induction 1 as [|c l Hc _ IH]; [done|].
  rewrite filter_cons_False; [done|].
  apply has_col_true in Hc. congruence.
Qed.

Lemma daily_summary_dates thr (df : DataFrame) days u f s :
  df !! DATE = Some (DateCol days) -> df !! UTIL = Some (NumCol u) ->
  df !! FLOW = Some (NumCol f) -> df !! SHAKER3 = Some (NumCol s) ->
  exists rows,
    daily_summary thr df = inr rows
    /\ ds_date <$> rows = DayKey <$> group_keys Z.compare days.
Proof.
  intros Hd Hu Hf Hs. unfold daily_summary, getitem. rewrite Hd. simpl.
  rewrite missing_columns_nil
    by (repeat constructor; by eexists).
  rewrite Hu, Hf, Hs. simpl. eexists. split; [reflexivity|].
  rewrite <- list_fmap_compose.
  rewrite (group_keys_fmap DayKey Z.compare key_compare days key_compare_day).
  rewrite <- list_fmap_compose. by apply list_fmap_ext.
Qed.

Lemma daily_summary_missing thr (df : DataFrame) by_col :
  df !! DATE = Some by_col ->
  df !! UTIL = None \/ df !! FLOW = None \/ df !! SHAKER3 = None ->
  exists missing, missing <> [] /\ daily_summary thr df = inl (KeyError missing).
Proof.
  intros Hd Hmiss. unfold daily_summary, getitem. rewrite Hd. simpl.
  destruct (filter _ _) as [|c l] eqn:Hfl.
  - exfalso.
    assert (Hin : exists c, c ∈ [UTIL; FLOW; SHAKER3] /\ has_col df c = false).
    { destruct Hmiss as [Hm|[Hm|Hm]]; apply has_col_false in Hm;
        eexists; (split; [|exact Hm]); set_solver. }
    destruct Hin as (c & Hc & Hfalse).
    assert (Hcf : c ∈ filter (fun c => has_col df c = false) [UTIL; FLOW; SHAKER3])
      by by apply list_elem_of_filter.
    rewrite Hfl in Hcf. by apply elem_of_nil in Hcf.
  - by exists (c :: l).
Qed.

(** C9, as the script behaves.  On a frame whose [Date] column holds
    calendar dates and which has numeric utilisation, flow-rate and shaker-3
    columns, the aggregation returns one row per distinct date present
    (rows without a timestamp are left out), each date in exactly one row,
    the rows ascending by date.  When one of the three columns is absent,
    [agg] raises [KeyError], the handler of line 117 takes over and no daily
    table is produced. *)
Theorem one_summary_row_per_date thr (df : DataFrame) (days : list (option Z)) :
  df !! DATE = Some (DateCol days) ->
  (forall u f s,
      df !! UTIL = Some (NumCol u) -> df !! FLOW = Some (NumCol f) ->
      df !! SHAKER3 = Some (NumCol s) ->
      exists rows ds,
        daily_summary thr df = inr rows
        /\ ds_date <$> rows = DayKey <$> ds
        /\ StronglySorted Z.lt ds
        /\ NoDup ds
        /\ (forall d, d ∈ ds <-> Some d ∈ days)
        /\ length rows = length (remove_dups (present days))
        /\ (forall d, Some d ∈ days ->
              exists i, forall j,
                (ds_date <$> rows) !! j = Some (DayKey d) <-> j = i))
  /\ (df !! UTIL = None \/ df !! FLOW = None \/ df !! SHAKER3 = None ->
      exists missing,
        missing <> [] /\ daily_summary thr df = inl (KeyError missing)
        /\ forall log, daily_tables (daily_block thr df log).1 = daily_tables log).
Proof.
  intros Hd. split.
  - intros u f s Hu Hf Hs.
    destruct (daily_summary_dates thr df days u f s Hd Hu Hf Hs)
      as (rows & Hrows & Hdates).
    set (ds := group_keys Z.compare days) in *.
    assert (Hsorted : StronglySorted Z.lt ds) by apply day_keys_sorted.
    assert (Hnodup : NoDup ds) by by apply strictly_ascending_NoDup.
    assert (Helem : forall d, d ∈ ds <-> Some d ∈ days)
      by (intros d; apply day_keys_elem).
    exists rows, ds. split_and!; [done..| |].
    + transitivity (length (ds_date <$> rows)); [by rewrite length_fmap|].
      rewrite Hdates, length_fmap. apply Permutation_length.
      apply NoDup_Permutation; [done|apply NoDup_remove_dups|].
      intros d. rewrite elem_of_remove_dups, Helem. unfold present.
      rewrite list_elem_of_omap. split.
      * intros Hin. by exists (Some d).
      * intros (cell & Hin & Hcell). simpl in Hcell. by subst.
    + intros d Hin. apply Helem in Hin.
      apply list_elem_of_lookup in Hin as [i Hi]. exists i. intros j.
      rewrite Hdates, list_lookup_fmap. split.
      * intros Hj. destruct (ds !! j) as [d'|] eqn:Hj'; simpl in Hj;
          [|done]. simplify_eq. by apply (NoDup_lookup ds j i d).
      * intros ->. by rewrite Hi.
  - intros Hmiss.
    destruct (daily_summary_missing thr df _ Hd Hmiss) as (missing & Hne & Hm).
    exists missing. split_and!; [done..|].
    intros log. unfold daily_block, try_except, sbind, lift, emit.
    rewrite Hm. simpl. rewrite !daily_tables_app. simpl.
    by rewrite !(right_id_L [] (++)).
Qed.

Lemma one_summary_row_per_date_witness :
  exists rows,
    daily_summary 80 two_day_df = inr rows
    /\ ds_date <$> rows = [DayKey 19723; DayKey 19724].
Proof.
  destruct (one_summary_row_per_date 80 two_day_df
              [Some 19723; Some 19723; Some 19724; None] eq_refl)
    as [Hrows _].
  destruct (Hrows _ _ _ eq_refl eq_refl eq_refl) as (rows & ds & Hd & _).
  exists rows. split; [exact Hd|].
  vm_compute in Hd. injection Hd as <-. reflexivity.
Defined.

(** C9, as the specification states it, fails: the readings of
    [no_shaker3_df] fall on two dates, and the run charts no daily table. *)
Lemma missing_column_drops_daily_summary :
  let out := @run reference_pandas "API 140" 80 no_shaker3_df in
  out.2 = inr tt
  /\ daily_tables out.1 = []
  /\ (exists df', @normalize reference_pandas no_shaker3_df = inr df'
        /\ df' !! DATE = Some (DateCol [Some 19723; Some 19724; Some 19724])).
Proof.
  split_and!; [by vm_compute..|].
  eexists. split; [reflexivity|]. by vm_compute.
Qed.

(** *** Sorting *)

(** ** Sorting by timestamp *)

Lemma fmap_lookup_seq {A} (d : A) (l : list A) :
  (fun j => default d (l !! j)) <$> seq 0 (length l) = l.
Proof.
  apply list_eq. intros i. rewrite list_lookup_fmap.
  destruct (decide (i < length l)%nat) as [Hlt|Hge].
  - rewrite lookup_seq_lt by done. simpl.
    destruct (lookup_lt_is_Some_2 l i Hlt) as [x Hx]. by rewrite Hx.
  - rewrite lookup_seq_ge by lia. simpl. symmetry. apply lookup_ge_None. lia.
Qed.

Lemma imap_pair_fst {A} (l : list A) : fst <$> imap pair l = seq 0 (length l).
Proof.
  rewrite fmap_imap.
  rewrite (imap_ext _ (fun j _ => id j)) by done.
  by rewrite imap_seq_0, list_fmap_id.
Qed.

Lemma imap_pair_elem {A} (l : list A) (p : nat * A) :
  p ∈ imap pair l -> l !! p.1 = Some p.2.
Proof.
  intros Hp. apply list_elem_of_lookup in Hp as [i Hi].
  rewrite list_lookup_imap in Hi.
  destruct (l !! i) as [x|] eqn:Hx; simpl in Hi; [|done].
  by simplify_eq.
Qed.

Section ArgsortBy.
Context (R : relation (nat * Z)) `{forall p q, Decision (R p q)}.
Context `{!Transitive R, !Total R}.
Hypothesis R_value : forall p q, R p q -> p.2 <= q.2.

Lemma argsort_by_contract : argsort_contract (argsort_by R).
Proof.
  intros l. unfold argsort_by. split.
  - rewrite merge_sort_Permutation. by rewrite imap_pair_fst.
  - rewrite <- list_fmap_compose.
    rewrite (list_fmap_ext _ snd (merge_sort R (imap pair l))).
    + eapply StronglySorted_fmap; [exact R_value|].
      by apply StronglySorted_merge_sort.
    + intros i p Hp. simpl.
      assert (Hin : p ∈ imap pair l).
      { rewrite <- (merge_sort_Permutation R). by eapply list_elem_of_lookup_2. }
      by rewrite (imap_pair_elem l p Hin).
Qed.
End ArgsortBy.

#[local] Instance by_value_trans : Transitive by_value.
Proof. unfold by_value. intros p q r. lia. Qed.
#[local] Instance by_value_total : Total by_value.
Proof. unfold by_value. intros p q. lia. Qed.
#[local] Instance by_value_then_later_trans : Transitive by_value_then_later.
Proof. unfold by_value_then_later. intros p q r. lia. Qed.
#[local] Instance by_value_then_later_total : Total by_value_then_later.
Proof. unfold by_value_then_later. intros p q. lia. Qed.

Lemma reference_argsort_contract : argsort_contract (@argsort reference_pandas).
Proof. apply argsort_by_contract; [apply _..|]. by unfold by_value. Qed.

Lemma later_first_argsort_contract :
  argsort_contract (argsort_by by_value_then_later).
Proof.
  apply argsort_by_contract; [apply _..|]. unfold by_value_then_later. lia.
Qed.

Lemma take_cells (idx : list nat) (ts : list (option Z)) :
  take idx ts = cell_at ts <$> idx.
Proof. done. Qed.

Lemma ts_le_sorted_app (vs : list Z) (n : nat) :
  StronglySorted Z.le vs ->
  StronglySorted ts_le ((Some <$> vs) ++ replicate n None).
Proof.
  intros Hvs. apply StronglySorted_app_2.
  - intros x1 x2 _ Hx2. apply elem_of_replicate in Hx2 as [-> _].
    by destruct x1.
  - eapply StronglySorted_fmap; [|exact Hvs]. by intros x y.
  - induction n as [|n IH]; simpl; constructor; [done|].
    apply Forall_forall. intros x Hx. by apply elem_of_replicate in Hx as [-> _].
Qed.

Section Nargsort.
Context `{Pandas}.
Hypothesis argsort_ok : argsort_contract argsort.

Lemma nargsort_permutation (ts : list (option Z)) :
  nargsort ts ≡ₚ seq 0 (length ts).
Proof.
  unfold nargsort.
  destruct (argsort_ok (non_nans ts)) as [Hperm _].
  rewrite Hperm. unfold non_nans at 1. rewrite length_fmap.
  rewrite fmap_lookup_seq. apply filter_app_complement.
Qed.

Lemma take_non_nan (ts : list (option Z)) :
  take ((fun j => default 0%nat (non_nan_idx ts !! j)) <$> argsort (non_nans ts)) ts
  = Some <$> ((fun j => default 0 (non_nans ts !! j)) <$> argsort (non_nans ts)).
Proof.
  rewrite take_cells, <- !list_fmap_compose.
  apply list_fmap_ext. intros k j Hj. simpl.
  destruct (argsort_ok (non_nans ts)) as [Hperm _].
  assert (Hlt : (j < length (non_nan_idx ts))%nat).
  { apply list_elem_of_lookup_2 in Hj. rewrite Hperm in Hj.
    apply elem_of_seq in Hj. unfold non_nans in Hj.
    rewrite length_fmap in Hj. lia. }
  destruct (lookup_lt_is_Some_2 _ _ Hlt) as [i Hi].
  unfold non_nans. rewrite list_lookup_fmap, Hi. simpl.
  apply list_elem_of_lookup_2, list_elem_of_filter in Hi as [[v Hv] _].
  by rewrite Hv.
Qed.

Lemma take_all_missing (idx : list nat) (ts : list (option Z)) :
  Forall (fun i => ~ is_Some (cell_at ts i)) idx ->
  take idx ts = replicate (length idx) None.
Proof.
  induction 1 as [|i l Hi _ IH]; [done|].
  rewrite take_cells in *. csimpl. rewrite IH. f_equal.
  destruct (cell_at ts i); [|done]. exfalso. apply Hi. by eexists.
Qed.

Lemma nargsort_sorted (ts : list (option Z)) :
  StronglySorted ts_le (take (nargsort ts) ts).
Proof.
  unfold nargsort, take. rewrite fmap_app. fold (@take Z).
  change (StronglySorted ts_le
    (take ((fun j => default 0%nat (non_nan_idx ts !! j)) <$> argsort (non_nans ts)) ts
     ++ take (nan_idx ts) ts)).
  rewrite take_non_nan, (take_all_missing (nan_idx ts)).
  - apply ts_le_sorted_app. by destruct (argsort_ok (non_nans ts)).
  - apply Forall_forall. intros i Hi. by apply list_elem_of_filter in Hi as [? _].
Qed.

(** C7, as the script behaves.  [sort_values] is called with its default
    kind, for which the library promises a sorted rearrangement and nothing
    about ties.  Under that promise the normalised frame has its timestamps
    ascending with the missing ones last, its rows are a rearrangement of
    the input rows, and every column is rearranged the same way. *)
Theorem normalize_sorts_by_timestamp (df df' : DataFrame) :
  normalize df = inr df' ->
  exists s ts,
    date_time_strings df = inr s /\ to_datetime s = inr ts
    /\ nargsort ts ≡ₚ seq 0 (length ts)
    /\ StronglySorted ts_le (take (nargsort ts) ts)
    /\ df' !! TIMESTAMP = Some (TimeCol (take (nargsort ts) ts))
    /\ forall k c, k <> TIMESTAMP -> k <> DATE -> df !! k = Some c ->
                   df' !! k = Some (col_take (nargsort ts) c).
Proof.
  intros Hn. apply normalize_structure in Hn as (s & ts & Hs & Hts & ->).
  exists s, ts. split_and!; [done|done|apply nargsort_permutation
                            |apply nargsort_sorted| |].
  - by rewrite lookup_insert_ne, lookup_fmap, lookup_insert_eq.
  - intros k c Hk1 Hk2 Hc.
    by rewrite lookup_insert_ne, lookup_fmap, lookup_insert_ne, Hc.
Qed.
End Nargsort.

Lemma normalize_sorts_by_timestamp_witness :
  exists s ts,
    date_time_strings tied_df = inr s
    /\ @to_datetime reference_pandas s = inr ts
    /\ StronglySorted ts_le (take (@nargsort reference_pandas ts) ts).
Proof.
  destruct (@normalize_sorts_by_timestamp reference_pandas
              reference_argsort_contract tied_df _ eq_refl)
    as (s & ts & Hs & Hts & _ & Hsorted & _).
  by exists s, ts.
Defined.

(** C7, as the specification states it, fails.  On the seventeen readings of
    [tied_run_df], all taken at the same instant, the call of line 63 is not
    bound to the input order: a sort that keeps the library's promise returns
    the rows, and with them the flow-rate column, in another order. *)
Lemma default_sort_reorders_ties :
  let ts := replicate 17 (Some tied_instant) in
  exists P : Pandas,
    @parse_datetime P = strict_parse
    /\ argsort_contract (@argsort P)
    /\ (exists s, date_time_strings tied_run_df = inr s /\ @to_datetime P s = inr ts)
    /\ ~ keeps_tie_order ts (@nargsort P ts)
    /\ exists df' before after,
         @normalize P tied_run_df = inr df'
         /\ df' !! TIMESTAMP = Some (TimeCol ts)
         /\ tied_run_df !! FLOW = Some (NumCol before)
         /\ df' !! FLOW = Some (NumCol after)
         /\ before <> after.
Proof.
  intros ts.
  exists {| parse_datetime := strict_parse;
            argsort := argsort_by by_value_then_later |}.
  split_and!.
  - done.
  - apply later_first_argsort_contract.
  - eexists. split; [reflexivity|]. by vm_compute.
  - intros Hkeep.
    specialize (Hkeep 0%nat 1%nat 16%nat 15%nat).
    assert (16 < 15)%nat; [|lia].
    apply Hkeep; [lia|by vm_compute..].
  - eexists _, _, _. split_and!; [reflexivity|by vm_compute|reflexivity
                                 |by vm_compute|discriminate].
Qed.

(** On the two tied rows of [tied_df] the merge sort of [reference_pandas]
    keeps the input order. *)
Example reference_sort_keeps_these_ties :
  exists df', @normalize reference_pandas tied_df = inr df'
    /\ df' !! FLOW = Some (NumCol [Some 1%Q; Some 2%Q]).
Proof. eexists. split; [reflexivity|]. by vm_compute. Qed.

(** * Further properties of the script *)

Lemma scalar_gt_above x k : scalar_gt x k = true <-> above x k.
Proof.
  destruct x as [v|].
  - rewrite scalar_gt_Some. unfold above. split.
    + intros Hlt. by exists v.
    + intros (v' & Hv & Hlt). by simplify_eq.
  - simpl. split; [done|]. by intros (v & Hv & _).
Qed.

(** X1.  When utilisation is not supplied and weight on bit and flow rate
    are numeric columns, the derivation adds exactly two numeric columns, the
    solids rate and the utilisation (a solids-rate column of the upload is
    overwritten), and leaves every other column as it is; the new columns are
    as long as the shorter input, and a row with a missing input has both
    results missing. *)
Theorem derive_adds_solids_and_utilization cap (df : DataFrame)
    (w f : list (option Q)) :
  df !! UTIL = None -> df !! WOB = Some (NumCol w) -> df !! FLOW = Some (NumCol f) ->
  exists s u df',
    derive cap df = inr df'
    /\ df' !! SOLIDS = Some (NumCol s) /\ df' !! UTIL = Some (NumCol u)
    /\ dom df' = {[UTIL; SOLIDS]} ∪ dom df
    /\ (forall k, k <> UTIL -> k <> SOLIDS -> df' !! k = df !! k)
    /\ length s = (length w `min` length f)%nat
    /\ length u = (length w `min` length f)%nat
    /\ forall i, (i < length w `min` length f)%nat ->
         w !! i = Some None \/ f !! i = Some None ->
         s !! i = Some None /\ u !! i = Some None.
Proof.
  intros Hu Hw Hf. unfold derive, derive_guard.
  apply has_col_false in Hu as Hu'. rewrite Hu'.
  assert (has_col df WOB = true) as -> by (apply has_col_true; by eexists).
  assert (has_col df FLOW = true) as -> by (apply has_col_true; by eexists).
  unfold getitem. rewrite Hw, Hf. simpl. rewrite lookup_insert_eq. simpl.
  eexists _, _, _. split; [reflexivity|].
  split; [by rewrite lookup_insert_ne, lookup_insert_eq|].
  split; [by rewrite lookup_insert_eq|].
  rewrite !length_fmap, length_zip_with. split_and!.
  - by rewrite !dom_insert_L, (assoc_L (∪)).
  - intros k Hk1 Hk2. by rewrite !lookup_insert_ne.
  - done.
  - done.
  - intros i Hi Hmiss.
    destruct (lookup_lt_is_Some_2 w i ltac:(lia)) as [a Ha].
    destruct (lookup_lt_is_Some_2 f i ltac:(lia)) as [b Hb].
    rewrite !list_lookup_fmap, lookup_zip_with, Ha. simpl. rewrite Hb. simpl.
    destruct Hmiss as [Hm|Hm]; simplify_eq; [done|]. by destruct a.
Qed.

Lemma derive_adds_solids_and_utilization_witness :
  exists (s u : list (option Q)) df',
    derive 200 derive_df = inr df'
    /\ df' !! UTIL = Some (NumCol u)
    /\ dom df' = {[UTIL; SOLIDS]} ∪ dom derive_df
    /\ length u = 3%nat
    /\ s !! 1%nat = Some None /\ u !! 1%nat = Some None.
Proof.
  destruct (derive_adds_solids_and_utilization 200 derive_df
              [Some 50%Q; None; Some 30%Q] [Some 400%Q; Some 300%Q; Some 200%Q])
    as (s & u & df' & Hd & _ & Hu & Hdom & _ & _ & Hlen & Hrow); [reflexivity..|].
  exists s, u, df'. split_and!; [exact Hd|exact Hu|exact Hdom|exact Hlen| |];
    by destruct (Hrow 1%nat ltac:(simpl; lia) (or_introl eq_refl)).
Defined.

(** X2.  The rule block as a decision table: each tier is produced in
    exactly one situation, so the four situations are exclusive and cover
    every input; an undefined scalar never satisfies a rule. *)
Theorem advisory_decision_table (df : DataFrame) (avg_util shaker_max avg_flow : scalar) :
  let available :=
    is_Some (df !! UTIL) /\ is_Some (df !! SHAKER3) /\ is_Some (df !! FLOW) in
  let overload := above avg_util 85 /\ above shaker_max 95 in
  let throughput := above avg_util 75 /\ above avg_flow 600 in
  let t := smart_advisory df avg_util shaker_max avg_flow in
  (t = Insufficient <-> ~ available)
  /\ (t = Overload <-> available /\ overload)
  /\ (t = HighThroughput <-> available /\ ~ overload /\ throughput)
  /\ (t = Normal <-> available /\ ~ overload /\ ~ throughput).
Proof.
  intros available overload throughput t. subst t. unfold smart_advisory.
  assert (Hav : issubset [UTIL; SHAKER3; FLOW] df = true <-> available)
    by apply issubset_required.
  assert (Hov : scalar_gt avg_util 85 && scalar_gt shaker_max 95 = true <-> overload).
  { rewrite andb_true_iff, !scalar_gt_above. done. }
  assert (Hth : scalar_gt avg_util 75 && scalar_gt avg_flow 600 = true <-> throughput).
  { rewrite andb_true_iff, !scalar_gt_above. done. }
  assert (Hdec : forall (b : bool) (P : Prop), (b = true <-> P) ->
            (b = true /\ P) \/ (b = false /\ ~ P)).
  { intros [] P HP; [left|right]; split; try done; [by apply HP|].
    intros HPp. by apply HP in HPp. }
  destruct (Hdec _ _ Hav) as [[-> Ha]|[-> Ha]];
    [destruct (Hdec _ _ Hov) as [[-> Ho]|[-> Ho]];
     [|destruct (Hdec _ _ Hth) as [[-> Ht]|[-> Ht]]]|];
    split_and!;
    (split; [intros Heq; try discriminate Heq; tauto
            |intros Hc; try reflexivity; exfalso; tauto]).
Qed.

(** ** Runs *)

Lemma charts_with_timestamp (df : DataFrame) log :
  is_Some (df !! TIMESTAMP) -> (charts df log).2 = inr tt.
Proof.
  intros [ts Hts]. unfold charts, sbind, lift, emit, sret, raise, getitem.
  assert (has_col df TIMESTAMP = true) as Ht by (apply has_col_true; by eexists).
  rewrite Hts, Ht.
  destruct (issubset [SHAKER1; SHAKER2; SHAKER3] df) eqn:Hsub.
  - unfold issubset in Hsub. simpl in Hsub.
    rewrite !andb_true_iff, !has_col_true in Hsub.
    destruct Hsub as ([? ->] & [? ->] & [? ->] & _).
    by destruct (has_col df FLOW).
  - by destruct (has_col df FLOW).
Qed.

Lemma daily_summary_error thr (df : DataFrame) e :
  daily_summary thr df = inl e -> is_KeyError e = true \/ e = TypeError.
Proof.
  unfold daily_summary, getitem.
  destruct (df !! DATE); simpl; [|intros; left; by simplify_eq].
  destruct (filter _ _); [|intros; left; by simplify_eq].
  destruct (df !! UTIL) as [[]|]; simpl; try (intros; right; by simplify_eq);
    try (intros; left; by simplify_eq).
  destruct (df !! FLOW) as [[]|]; simpl; try (intros; right; by simplify_eq);
    try (intros; left; by simplify_eq).
  destruct (df !! SHAKER3) as [[]|]; simpl; try (intros; right; by simplify_eq);
    try (intros; left; by simplify_eq).
Qed.

Lemma pipeline_unfold cap thr (df : DataFrame) log :
  pipeline cap thr df log =
  match derive cap df with
  | inl e => (log, inl e)
  | inr df' =>
      match kpis df' with
      | inl e => (log, inl e)
      | inr (u, f, s) =>
          match charts df' (((log ++ [st_metric "Avg Utilization" u])
                             ++ [st_metric "Avg Flow Rate" f])
                            ++ [st_metric "Max SHKR3" s]) with
          | (log1, inl e) => (log1, inl e)
          | (log1, inr _) =>
              match daily_block thr df' log1 with
              | (log2, inl e) => (log2, inl e)
              | (log2, inr _) =>
                  ((log2 ++ [st_dataframe df'])
                   ++ [st_info_advisory (smart_advisory df' u s f)], inr tt)
              end
          end
      end
  end.
Proof.
  unfold pipeline, sbind, lift, emit, advisory_block.
  destruct (derive cap df) as [e|df']; [done|].
  destruct (kpis df') as [e|[[u f] s]]; [done|]. simpl.
  destruct (charts df' _) as [log1 [e|[]]]; [done|].
  by destruct (daily_block thr df' log1) as [log2 [e|[]]].
Qed.

Lemma daily_block_failed_tables thr (df : DataFrame) log log' e :
  daily_block thr df log = (log', inl e) -> log' = log.
Proof.
  unfold daily_block, try_except, sbind, lift, emit.
  destruct (daily_summary thr df) as [e'|rows]; simpl; [|done].
  destruct (is_KeyError e'); simpl; intros; by simplify_eq.
Qed.

Lemma pipeline_log_shape cap thr (df : DataFrame) log log' r :
  pipeline cap thr df log = (log', r) ->
  exists evs, log' = log ++ evs /\ pipeline_shape evs r.
Proof.
  unfold pipeline, sbind at 1, lift at 1. intros Hp.
  destruct (derive cap df) as [e|df'].
  { simplify_eq. exists []. rewrite (right_id_L [] (++)).
    split; [done|]. unfold pipeline_shape. split_and!; auto; done. }
  unfold sbind at 1, lift at 1 in Hp.
  destruct (kpis df') as [e|[[u f] s]].
  { simplify_eq. exists []. rewrite (right_id_L [] (++)).
    split; [done|]. unfold pipeline_shape. split_and!; auto; done. }
  unfold sbind at 1 2 3, emit at 1 2 3 in Hp. simpl in Hp.
  unfold sbind at 1 in Hp.
  destruct (charts df' _) as [log1 r1] eqn:Hc.
  apply charts_log in Hc as (ev1 & -> & Hq1 & Hq2 & Hq3 & Hq4).
  destruct r1 as [e|[]].
  { simplify_eq. eexists. rewrite <- !(assoc_L (++)). split; [reflexivity|].
    unfold pipeline_shape.
    rewrite !timestamp_errors_app, !daily_tables_app, !metrics_app,
      !advisories_app, Hq1, Hq2, Hq3, Hq4. simpl.
    split_and!; [done|lia|right; by eexists _, _, _|done|done]. }
  unfold sbind at 1 in Hp.
  destruct (daily_block thr df' _) as [log2 r2] eqn:Hd.
  destruct r2 as [e|[]].
  { apply daily_block_failed_tables in Hd as ->. simplify_eq.
    eexists. rewrite <- !(assoc_L (++)). split; [reflexivity|].
    unfold pipeline_shape.
    rewrite !timestamp_errors_app, !daily_tables_app, !metrics_app,
      !advisories_app, Hq1, Hq2, Hq3, Hq4. simpl.
    split_and!; [done|lia|right; by eexists _, _, _|done|done]. }
  apply daily_block_log in Hd as (ev2 & -> & Hd1 & Hd2 & Hd3 & Hd4).
  unfold sbind, advisory_block, emit in Hp. simplify_eq.
  eexists. rewrite <- !(assoc_L (++)). split; [reflexivity|].
  unfold pipeline_shape.
  rewrite !timestamp_errors_app, !daily_tables_app, !metrics_app,
    !advisories_app, Hq1, Hq2, Hq3, Hq4, Hd1, Hd2, Hd3, Hd4. simpl.
  split_and!; [done| |right; by eexists _, _, _|done|].
  - destruct (daily_summary thr df'); simpl; lia.
  - intros _. split; [done|]. eexists. split; [done|].
    change [st_dataframe df'; st_info_advisory (smart_advisory df' u s f)]
      with ([st_dataframe df'] ++ [st_info_advisory (smart_advisory df' u s f)]).
    rewrite !(assoc_L (++)), app_comm_cons. apply last_snoc.
Qed.

Lemma numeric_or_absent_cases (df : DataFrame) k :
  numeric_or_absent df k -> df !! k = None \/ exists l, df !! k = Some (NumCol l).
Proof.
  unfold numeric_or_absent. destruct (df !! k) as [[]|]; try done; eauto.
Qed.

Lemma numeric_or_absent_take (df df' : DataFrame) k idx :
  df' !! k = col_take idx <$> df !! k ->
  numeric_or_absent df k -> numeric_or_absent df' k.
Proof.
  unfold numeric_or_absent. intros ->. by destruct (df !! k) as [[]|].
Qed.

Lemma derive_numeric cap (df : DataFrame) :
  numeric_or_absent df WOB -> numeric_or_absent df FLOW ->
  derive cap df = inr df \/
  exists s u, derive cap df = inr (<[UTIL := NumCol u]> (<[SOLIDS := NumCol s]> df)).
Proof.
  intros Hw Hf. destruct (derive_guard df) eqn:Hg.
  - right. unfold derive. rewrite Hg. unfold derive_guard in Hg.
    rewrite !andb_true_iff, !has_col_true in Hg. destruct Hg as [[_ [w Hw']] [f Hf']].
    destruct (numeric_or_absent_cases df WOB Hw) as [?|[lw Hlw]]; [congruence|].
    destruct (numeric_or_absent_cases df FLOW Hf) as [?|[lf Hlf]]; [congruence|].
    unfold getitem. rewrite Hlw, Hlf. simpl. rewrite lookup_insert_eq. simpl.
    by eexists _, _.
  - left. by apply derive_guard_false.
Qed.

Lemma derive_keeps_numeric cap (df df' : DataFrame) k :
  derive cap df = inr df' ->
  numeric_or_absent df WOB -> numeric_or_absent df FLOW ->
  numeric_or_absent df k -> numeric_or_absent df' k.
Proof.
  intros Hd Hw Hf Hk.
  destruct (derive_numeric cap df Hw Hf) as [Heq|(s & u & Heq)];
    rewrite Heq in Hd; simplify_eq; [done|].
  unfold numeric_or_absent.
  destruct (decide (k = UTIL)) as [->|Hku]; [by rewrite lookup_insert_eq|].
  rewrite lookup_insert_ne by done.
  destruct (decide (k = SOLIDS)) as [->|Hks]; [by rewrite lookup_insert_eq|].
  by rewrite lookup_insert_ne.
Qed.

Lemma kpis_numeric (df : DataFrame) :
  numeric_or_absent df UTIL -> numeric_or_absent df FLOW ->
  numeric_or_absent df SHAKER3 -> exists k, kpis df = inr k.
Proof.
  intros Hu Hf Hs. unfold kpis, getitem.
  destruct (numeric_or_absent_cases df UTIL Hu) as [Hu'|[lu Hu']];
  destruct (numeric_or_absent_cases df FLOW Hf) as [Hf'|[lf Hf']];
  destruct (numeric_or_absent_cases df SHAKER3 Hs) as [Hs'|[ls Hs']];
  repeat match goal with
         | Hx : df !! ?k = None |- _ =>
             assert (has_col df k = false) as -> by (by apply has_col_false);
             clear Hx
         | Hx : df !! ?k = Some _ |- _ =>
             assert (has_col df k = true) as -> by (apply has_col_true; by eexists);
             rewrite Hx; clear Hx
         end; simpl; by eexists.
Qed.

Lemma daily_block_numeric thr (df : DataFrame) log :
  numeric_or_absent df UTIL -> numeric_or_absent df FLOW ->
  numeric_or_absent df SHAKER3 -> (daily_block thr df log).2 = inr tt.
Proof.
  intros Hu Hf Hs.
  destruct (daily_block thr df log) as [log' [e|[]]] eqn:Hd; [|done].
  exfalso. unfold daily_block, try_except, sbind, lift, emit in Hd.
  destruct (daily_summary thr df) as [e'|rows] eqn:Hds; simpl in Hd; [|done].
  destruct (daily_summary_error thr df e' Hds) as [Hk| ->].
  { by rewrite Hk in Hd. }
  revert Hds. unfold daily_summary, getitem.
  destruct (df !! DATE); simpl; [|done].
  destruct (filter _ _); [|done].
  destruct (numeric_or_absent_cases df UTIL Hu) as [->|[lu ->]]; [done|].
  destruct (numeric_or_absent_cases df FLOW Hf) as [->|[lf ->]]; [done|].
  by destruct (numeric_or_absent_cases df SHAKER3 Hs) as [->|[ls ->]].
Qed.

Lemma pipeline_completes cap thr (df : DataFrame) log :
  is_Some (df !! TIMESTAMP) ->
  numeric_or_absent df UTIL -> numeric_or_absent df WOB ->
  numeric_or_absent df FLOW -> numeric_or_absent df SHAKER3 ->
  (pipeline cap thr df log).2 = inr tt.
Proof.
  intros Hts Hu Hw Hf Hs.
  destruct (pipeline cap thr df log) as [log' [e|[]]] eqn:Hp; [|done].
  exfalso. revert Hp. unfold pipeline, sbind at 1, lift at 1.
  destruct (derive cap df) as [e'|df'] eqn:Hd.
  { destruct (derive_numeric cap df Hw Hf) as [?|(? & ? & ?)]; congruence. }
  assert (Hu' : numeric_or_absent df' UTIL) by by eapply derive_keeps_numeric.
  assert (Hf' : numeric_or_absent df' FLOW) by by eapply derive_keeps_numeric.
  assert (Hs' : numeric_or_absent df' SHAKER3) by by eapply derive_keeps_numeric.
  assert (Hts' : is_Some (df' !! TIMESTAMP))
    by by rewrite (derive_other_columns cap df df' TIMESTAMP Hd).
  unfold sbind at 1, lift at 1.
  destruct (kpis_numeric df' Hu' Hf' Hs') as [[[u f] s] ->].
  unfold sbind at 1 2 3, emit at 1 2 3. simpl. unfold sbind at 1.
  pose proof (charts_with_timestamp df'
    ((((log ++ [st_metric "Avg Utilization" u]) ++ [st_metric "Avg Flow Rate" f])
       ++ [st_metric "Max SHKR3" s])) Hts') as Hc.
  destruct (charts df' _) as [log1 r1]. simpl in Hc. subst r1.
  unfold sbind at 1.
  pose proof (daily_block_numeric thr df' log1 Hu' Hf' Hs') as Hdb.
  destruct (daily_block thr df' log1) as [log2 r2]. simpl in Hdb. subst r2.
  unfold sbind, advisory_block, emit. done.
Qed.

Lemma charts_result (df : DataFrame) log :
  (charts df log).2
  = if issubset [SHAKER1; SHAKER2; SHAKER3] df then
      if has_col df TIMESTAMP then inr tt else inl (KeyError [TIMESTAMP])
    else if has_col df FLOW then
      if has_col df TIMESTAMP then inr tt else inl (ValueError TIMESTAMP)
    else inr tt.
Proof.
  destruct (has_col df TIMESTAMP) eqn:Ht.
  - rewrite (charts_with_timestamp df log) by by apply has_col_true.
    by repeat case_match.
  - apply has_col_false in Ht as Hts.
    unfold charts, sbind, lift, emit, sret, raise, getitem. rewrite Hts, Ht.
    destruct (issubset [SHAKER1; SHAKER2; SHAKER3] df); [done|].
    by destruct (has_col df FLOW).
Qed.

Lemma has_col_same (df df' : DataFrame) k :
  df' !! k = df !! k -> has_col df' k = has_col df k.
Proof. unfold has_col. by intros ->. Qed.

Lemma pipeline_well_typed_result cap thr (df : DataFrame) log :
  numeric_or_absent df UTIL -> numeric_or_absent df WOB ->
  numeric_or_absent df FLOW -> numeric_or_absent df SHAKER3 ->
  (pipeline cap thr df log).2 = (charts df log).2.
Proof.
  intros Hu Hw Hf Hs. rewrite pipeline_unfold.
  destruct (derive cap df) as [e'|df'] eqn:Hd.
  { destruct (derive_numeric cap df Hw Hf) as [?|(? & ? & ?)]; congruence. }
  assert (Hu' : numeric_or_absent df' UTIL) by by eapply derive_keeps_numeric.
  assert (Hf' : numeric_or_absent df' FLOW) by by eapply derive_keeps_numeric.
  assert (Hs' : numeric_or_absent df' SHAKER3) by by eapply derive_keeps_numeric.
  assert (Hsame : forall k, k <> UTIL -> k <> SOLIDS -> has_col df' k = has_col df k).
  { intros k Hk1 Hk2. apply has_col_same. by apply (derive_other_columns cap). }
  destruct (kpis_numeric df' Hu' Hf' Hs') as [[[u f] s] ->].
  rewrite (charts_result df log).
  pose proof (charts_result df'
    (((log ++ [st_metric "Avg Utilization" u]) ++ [st_metric "Avg Flow Rate" f])
       ++ [st_metric "Max SHKR3" s])) as Hc.
  unfold issubset in *. simpl in *.
  rewrite !(Hsame SHAKER1), !(Hsame SHAKER2), !(Hsame SHAKER3), !(Hsame FLOW),
    !(Hsame TIMESTAMP) in Hc by done.
  rewrite <- Hc. clear Hc.
  destruct (charts df' _) as [log1 [e|[]]]; [done|].
  pose proof (daily_block_numeric thr df' log1 Hu' Hf' Hs') as Hdb.
  by destruct (daily_block thr df' log1) as [log2 [e|[]]].
Qed.

Section RunShape.
Context `{Pandas}.

(** X3.  When every sensor column is numeric or absent, a run stops early
    in one situation only: the timestamps failed to parse, the upload has no
    [Timestamp] column of its own, and a chart asks for it.  The shaker chart
    then fails with a [KeyError] (line 87); without the three shaker columns
    the flow chart fails with a [ValueError] (line 95).  In every other case
    the run reaches its end. *)
Theorem well_typed_run_stops_only_at_charts
    (mesh : string) cap thr (df : DataFrame) log r :
  mesh_lookup mesh = inr cap ->
  numeric_or_absent df UTIL -> numeric_or_absent df WOB ->
  numeric_or_absent df FLOW -> numeric_or_absent df SHAKER3 ->
  run mesh thr df = (log, r) ->
  let trio := issubset [SHAKER1; SHAKER2; SHAKER3] df in
  match r with
  | inl e =>
      (exists e', normalize df = inl e') /\ df !! TIMESTAMP = None
      /\ ((trio = true /\ e = KeyError [TIMESTAMP])
          \/ (trio = false /\ is_Some (df !! FLOW) /\ e = ValueError TIMESTAMP))
  | inr _ =>
      (exists df', normalize df = inr df') \/ is_Some (df !! TIMESTAMP)
      \/ (trio = false /\ df !! FLOW = None)
  end.
Proof.
  intros Hm Hu Hw Hf Hs Hrun. cbv zeta.
  rewrite (run_unfold mesh cap thr df Hm) in Hrun.
  destruct (normalize df) as [e'|df'] eqn:Hn.
  - pose proof (pipeline_well_typed_result cap thr df [st_error_timestamp e']
                  Hu Hw Hf Hs) as Hres.
    rewrite Hrun, charts_result in Hres. cbn [snd] in Hres.
    destruct (issubset [SHAKER1; SHAKER2; SHAKER3] df).
    + destruct (has_col df TIMESTAMP) eqn:Ht; subst r.
      * right. left. by apply has_col_true.
      * apply has_col_false in Ht. split_and!; [by eexists|done|by left].
    + destruct (has_col df FLOW) eqn:Hfl.
      * destruct (has_col df TIMESTAMP) eqn:Ht; subst r.
        -- right. left. by apply has_col_true.
        -- apply has_col_false in Ht. apply has_col_true in Hfl.
           split_and!; [by eexists|done|by right].
      * subst r. right. right. by apply has_col_false in Hfl.
  - assert (Hcol : forall k, k <> TIMESTAMP -> k <> DATE ->
              numeric_or_absent df k -> numeric_or_absent df' k).
    { intros k Hk1 Hk2 Hk.
      destruct (normalize_other_columns df df' k Hn Hk1 Hk2) as [idx Hidx].
      by eapply numeric_or_absent_take. }
    assert (Hts : is_Some (df' !! TIMESTAMP)).
    { apply normalize_structure in Hn as (s & ts & _ & _ & ->).
      by rewrite lookup_insert_ne, lookup_fmap, lookup_insert_eq. }
    pose proof (pipeline_completes cap thr df' [] Hts
      (Hcol UTIL ltac:(done) ltac:(done) Hu) (Hcol WOB ltac:(done) ltac:(done) Hw)
      (Hcol FLOW ltac:(done) ltac:(done) Hf)
      (Hcol SHAKER3 ltac:(done) ltac:(done) Hs)) as Hok.
    rewrite Hrun in Hok. simpl in Hok. subst r. left. by eexists.
Qed.

(** X4.  With a shaker-3 column that is numeric or absent, a run reports at
    most one timestamp error and charts at most one daily table; it displays
    either no KPI or the three KPIs in their fixed order; a run that stops
    early shows no advisory and no daily table, and a run that reaches its
    end shows exactly one advisory, as the last of its calls.  (A shaker-3
    column of text is left out: there two KPIs are displayed before line 79
    fails.) *)
Theorem run_log_shape (mesh : string) thr (df : DataFrame) log r :
  numeric_or_absent df SHAKER3 ->
  run mesh thr df = (log, r) ->
  (length (timestamp_errors log) <= 1)%nat
  /\ (length (daily_tables log) <= 1)%nat
  /\ (metrics log = [] \/
      exists u f s, metrics log = [("Avg Utilization"%string, u);
                                   ("Avg Flow Rate"%string, f);
                                   ("Max SHKR3"%string, s)])
  /\ (forall e, r = inl e -> advisories log = [] /\ daily_tables log = [])
  /\ (r = inr tt -> exists t, advisories log = [t] /\
                              last log = Some (st_info_advisory t)).
Proof.
  intros _ Hrun. destruct (mesh_lookup mesh) as [e'|cap] eqn:Hm.
  { unfold run, dashboard, sbind, lift in Hrun. rewrite Hm in Hrun.
    simplify_eq. split_and!; simpl; auto; done. }
  rewrite (run_unfold mesh cap thr df Hm) in Hrun.
  destruct (normalize df) as [e'|df'] eqn:Hn;
    apply pipeline_log_shape in Hrun
      as (evs & -> & Hts & Hdt & Hmet & Herr & Hok);
    rewrite ?timestamp_errors_app, ?daily_tables_app, ?metrics_app,
      ?advisories_app, Hts; simpl;
    (split_and!; [lia|done|done|done|]);
    intros Hr; destruct (Hok Hr) as (_ & t & Ht & Hlast); exists t;
    (split; [done|]).
  - destruct evs as [|ev evs]; [done|]. by rewrite last_cons, Hlast.
  - done.
Qed.

(** X5.  If the timestamps parse and each sensor column is numeric or
    absent, the run reaches its end: no error is reported, the three KPIs are
    displayed and exactly one advisory is shown. *)
Theorem well_typed_run_completes (mesh : string) cap thr (df df' : DataFrame) :
  mesh_lookup mesh = inr cap -> normalize df = inr df' ->
  numeric_or_absent df UTIL -> numeric_or_absent df WOB ->
  numeric_or_absent df FLOW -> numeric_or_absent df SHAKER3 ->
  exists log t,
    run mesh thr df = (log, inr tt)
    /\ timestamp_errors log = []
    /\ length (metrics log) = 3%nat
    /\ advisories log = [t]
    /\ last log = Some (st_info_advisory t).
Proof.
  intros Hm Hn Hu Hw Hf Hs.
  rewrite (run_unfold mesh cap thr df Hm), Hn.
  assert (Hcol : forall k, k <> TIMESTAMP -> k <> DATE ->
            numeric_or_absent df k -> numeric_or_absent df' k).
  { intros k Hk1 Hk2 Hk.
    destruct (normalize_other_columns df df' k Hn Hk1 Hk2) as [idx Hidx].
    by eapply numeric_or_absent_take. }
  assert (Hts : is_Some (df' !! TIMESTAMP)).
  { apply normalize_structure in Hn as (s & ts & _ & _ & ->).
    by rewrite lookup_insert_ne, lookup_fmap, lookup_insert_eq. }
  pose proof (pipeline_completes cap thr df' [] Hts
    (Hcol UTIL ltac:(done) ltac:(done) Hu) (Hcol WOB ltac:(done) ltac:(done) Hw)
    (Hcol FLOW ltac:(done) ltac:(done) Hf)
    (Hcol SHAKER3 ltac:(done) ltac:(done) Hs)) as Hok.
  destruct (pipeline cap thr df' []) as [log r] eqn:Hp. simpl in Hok. subst r.
  apply pipeline_log_shape in Hp as (evs & -> & Hte & _ & _ & _ & Hfin).
  destruct (Hfin eq_refl) as (Hmet & t & Ht & Hlast).
  exists ([] ++ evs), t. by split_and!.
Qed.
End RunShape.

(** ** Normalisation *)



Section Normalised.
Context `{Pandas}.


Lemma to_datetime_from_length (l : list (option string)) pos ts :
  to_datetime_from pos l = inr ts -> length ts = length l.
Proof.
  revert pos ts. induction l as [|[s|] l IH]; intros pos ts; simpl.
  - intros. by simplify_eq.
  - destruct (parse_datetime s); [|done].
    destruct (to_datetime_from (S pos) l) as [|ts'] eqn:Hts; simpl; [done|].
    intros. simplify_eq. simpl. f_equal. by eapply IH.
  - destruct (to_datetime_from (S pos) l) as [|ts'] eqn:Hts; simpl; [done|].
    intros. simplify_eq. simpl. f_equal. by eapply IH.
Qed.



End Normalised.

(** ** Sorting rearranges the cells *)

Lemma take_permutation {A} (idx : list nat) (l : list (option A)) :
  idx ≡ₚ seq 0 (length l) -> take idx l ≡ₚ l.
Proof.
  intros Hp. unfold take. rewrite Hp. by rewrite fmap_lookup_seq.
Qed.

Lemma is_max_permutation (xs ys : list Q) m :
  xs ≡ₚ ys -> is_max xs m -> is_max ys m.
Proof.
  intros Hp. destruct m as [v|]; simpl.
  - intros [Hin Hub]. split; [by rewrite <- Hp|].
    intros x Hx. apply Hub. by rewrite Hp.
  - intros ->. by apply Permutation_nil_l in Hp.
Qed.

Section SortedFrame.
Context `{Pandas}.
Hypothesis argsort_ok : argsort_contract argsort.

(** X7.  Sorting only rearranges: a numeric column with one cell per row
    holds the same cells after normalisation, in another order, so its
    maximum is the maximum of the uploaded cells, whatever order the sort
    gives to ties. *)
Theorem sort_rearranges_cells (df df' : DataFrame) strs k (l : list (option Q)) :
  normalize df = inr df' ->
  date_time_strings df = inr (StrCol strs) ->
  k <> TIMESTAMP -> k <> DATE ->
  df !! k = Some (NumCol l) -> length l = length strs ->
  exists l',
    df' !! k = Some (NumCol l')
    /\ l' ≡ₚ l
    /\ is_max (present l) (series_max l').
Proof.
  intros Hn Hs Hk1 Hk2 Hl Hlen.
  apply normalize_structure in Hn as (s & ts & Hs' & Hts & ->).
  rewrite Hs in Hs'. simplify_eq. simpl in Hts.
  apply to_datetime_from_length in Hts as Hlts.
  exists (take (nargsort ts) l).
  assert (Hperm : take (nargsort ts) l ≡ₚ l).
  { apply take_permutation. rewrite Hlen, <- Hlts.
    by apply nargsort_permutation. }
  split_and!.
  - by rewrite lookup_insert_ne, lookup_fmap, lookup_insert_ne, Hl.
  - done.
  - eapply is_max_permutation; [|apply series_max_spec].
    unfold present. by rewrite Hperm.
Qed.

(** X8.  After normalisation the [Date] column is, row by row, the calendar
    day of the [Timestamp] column (missing where the timestamp is missing),
    and both columns are ascending with the missing cells last. *)
Theorem dates_follow_sorted_timestamps (df df' : DataFrame) :
  normalize df = inr df' ->
  exists ts ds,
    df' !! TIMESTAMP = Some (TimeCol ts) /\ df' !! DATE = Some (DateCol ds)
    /\ length ds = length ts
    /\ (forall i, ds !! i
                  = (fun cell : option Z => (fun t => t / ns_per_day) <$> cell)
                    <$> ts !! i)
    /\ StronglySorted ts_le ts /\ StronglySorted ts_le ds.
Proof.
  intros Hn. apply normalize_structure in Hn as (s & ts & _ & _ & ->).
  eexists _, _. split_and!.
  - by rewrite lookup_insert_ne, lookup_fmap, lookup_insert_eq.
  - by rewrite lookup_insert_eq.
  - by rewrite length_fmap.
  - intros i. by rewrite list_lookup_fmap.
  - by apply nargsort_sorted.
  - eapply StronglySorted_fmap; [|by apply nargsort_sorted].
    intros [x|] [y|]; simpl; try done. intros Hxy.
    apply Z.div_le_mono; [done|exact Hxy].
Qed.
End SortedFrame.

(** ** What the settings change *)

Lemma pipeline_supplied cap cap' thr (df : DataFrame) log :
  is_Some (df !! UTIL) -> pipeline cap thr df log = pipeline cap' thr df log.
Proof.
  intros Hu. unfold pipeline, sbind at 1 3, lift at 1 3.
  by rewrite !(derive_supplied _ df Hu).
Qed.

Lemma pipeline_advisories_missing cap thr (df : DataFrame) log log' r :
  (forall df', derive cap df = inr df' ->
     df' !! FLOW = None \/ df' !! UTIL = None \/ df' !! SHAKER3 = None) ->
  pipeline cap thr df log = (log', r) ->
  advisories log' = advisories log ++ match r with
                                      | inr _ => [Insufficient]
                                      | inl _ => []
                                      end.
Proof.
  intros Hmiss Hp. apply pipeline_log in Hp.
  destruct (derive cap df) as [e|df'] eqn:Hd.
  { destruct Hp as [-> ->]. by rewrite (right_id_L [] (++)). }
  destruct (kpis df') as [e|[[u f] s]].
  { destruct Hp as [-> ->]. by rewrite (right_id_L [] (++)). }
  destruct Hp as (evs & -> & _ & _ & _ & Hadv).
  rewrite !advisories_app. simpl. rewrite Hadv. f_equal.
  destruct r; [done|]. f_equal. apply smart_advisory_insufficient. auto.
Qed.

Lemma derive_without_inputs cap (df : DataFrame) :
  df !! WOB = None \/ df !! FLOW = None -> derive cap df = inr df.
Proof.
  intros Hmiss. apply derive_guard_false. unfold derive_guard.
  destruct Hmiss as [Hm|Hm]; apply has_col_false in Hm; rewrite Hm;
    [by rewrite andb_false_r|by rewrite andb_false_r].
Qed.

Lemma kpis_absent_utilization (df : DataFrame) u f s :
  df !! UTIL = None -> kpis df = inr (u, f, s) -> u = Some 0%Q.
Proof.
  intros Hu. unfold kpis. apply has_col_false in Hu. rewrite Hu. simpl.
  destruct (if has_col df FLOW then _ else _); simpl; [done|].
  destruct (if has_col df SHAKER3 then _ else _); simpl; [done|].
  intros. by simplify_eq.
Qed.

Lemma pipeline_underivable cap thr (df : DataFrame) log log' r :
  df !! UTIL = None -> df !! WOB = None \/ df !! FLOW = None ->
  pipeline cap thr df log = (log', r) ->
  (metrics log' = metrics log \/
   exists f s, metrics log' = metrics log ++
                 [("Avg Utilization"%string, Some 0%Q);
                  ("Avg Flow Rate"%string, f); ("Max SHKR3"%string, s)])
  /\ advisories log' = advisories log ++ match r with
                                         | inr _ => [Insufficient]
                                         | inl _ => []
                                         end.
Proof.
  intros Hu Hmiss Hp. split.
  - apply pipeline_log in Hp. rewrite (derive_without_inputs cap df Hmiss) in Hp.
    destruct (kpis df) as [e|[[u f] s]] eqn:Hk.
    { destruct Hp as [-> _]. by left. }
    destruct Hp as (evs & -> & Hmet & _). right. exists f, s.
    rewrite (kpis_absent_utilization df u f s Hu Hk).
    by rewrite !metrics_app, Hmet.
  - apply (pipeline_advisories_missing cap thr df log log' r); [|done].
    intros df' Hd. rewrite (derive_without_inputs cap df Hmiss) in Hd.
    simplify_eq. auto.
Qed.

Section Settings.
Context `{Pandas}.

(** X9.  When the upload supplies the utilisation column, the selected mesh
    type has no effect at all: two runs that differ only in the mesh type
    make the same calls and end the same way. *)
Theorem mesh_type_irrelevant_when_utilization_supplied
    (mesh mesh' : string) cap cap' thr (df : DataFrame) :
  is_Some (df !! UTIL) ->
  mesh_lookup mesh = inr cap -> mesh_lookup mesh' = inr cap' ->
  run mesh thr df = run mesh' thr df.
Proof.
  intros Hu Hm Hm'.
  rewrite (run_unfold mesh cap thr df Hm), (run_unfold mesh' cap' thr df Hm').
  destruct (normalize df) as [e|df'] eqn:Hn.
  - by apply pipeline_supplied.
  - apply pipeline_supplied.
    destruct (normalize_other_columns df df' UTIL Hn) as [idx ->]; [done..|].
    destruct Hu as [c ->]. by eexists.
Qed.

(** X10.  When utilisation is neither supplied nor derivable (weight on bit
    or flow rate is missing), the only advisory the run can show is
    Insufficient; and with a shaker-3 column that is numeric or absent, the
    KPIs are displayed all three or not at all, the utilisation KPI being
    0. *)
Theorem underivable_utilization_gives_insufficient
    (mesh : string) thr (df : DataFrame) log r :
  df !! UTIL = None -> df !! WOB = None \/ df !! FLOW = None ->
  run mesh thr df = (log, r) ->
  advisories log = match r with
                   | inr _ => [Insufficient]
                   | inl _ => []
                   end
  /\ (numeric_or_absent df SHAKER3 ->
      metrics log = [] \/
      exists f s, metrics log = [("Avg Utilization"%string, Some 0%Q);
                                 ("Avg Flow Rate"%string, f);
                                 ("Max SHKR3"%string, s)]).
Proof.
  intros Hu Hmiss Hrun.
  enough (Hboth :
    (metrics log = [] \/
     exists f s, metrics log = [("Avg Utilization"%string, Some 0%Q);
                                ("Avg Flow Rate"%string, f);
                                ("Max SHKR3"%string, s)])
    /\ advisories log = match r with
                        | inr _ => [Insufficient]
                        | inl _ => []
                        end)
    by (destruct Hboth as [Hmet Hadv]; split; [exact Hadv|intros _; exact Hmet]).
  destruct (mesh_lookup mesh) as [e|cap] eqn:Hm.
  { unfold run, dashboard, sbind, lift in Hrun. rewrite Hm in Hrun.
    simplify_eq. split; [by left|done]. }
  rewrite (run_unfold mesh cap thr df Hm) in Hrun.
  destruct (normalize df) as [e|df'] eqn:Hn.
  - by apply pipeline_underivable in Hrun.
  - apply pipeline_underivable in Hrun; [done| |].
    + destruct (normalize_other_columns df df' UTIL Hn) as [idx ->]; [done..|].
      by rewrite Hu.
    + destruct Hmiss as [Hw|Hf]; [left|right].
      * destruct (normalize_other_columns df df' WOB Hn) as [idx ->]; [done..|].
        by rewrite Hw.
      * destruct (normalize_other_columns df df' FLOW Hn) as [idx ->]; [done..|].
        by rewrite Hf.
Qed.
End Settings.

(** ** A utilisation column without values *)

Lemma present_nil_iff {A} (l : list (option A)) :
  present l = [] <-> forall x, Some x ∉ l.
Proof.
  unfold present. split.
  - intros Hp x Hx.
    assert (Hin : x ∈ omap id l) by (apply list_elem_of_omap; by exists (Some x)).
    rewrite Hp in Hin. by apply elem_of_nil in Hin.
  - intros Hno. destruct (omap id l) as [|x xs] eqn:Ho; [done|].
    exfalso. assert (Hin : x ∈ omap id l) by (rewrite Ho; apply list_elem_of_here).
    apply list_elem_of_omap in Hin as ([y|] & Hy & Heq); simpl in Heq; [|done].
    simplify_eq. by apply (Hno x).
Qed.

Lemma take_blank {A} (idx : list nat) (l : list (option A)) :
  present l = [] -> present (take idx l) = [].
Proof.
  rewrite !present_nil_iff. intros Hno x Hx.
  unfold take in Hx. apply list_elem_of_fmap in Hx as (i & Hi & _).
  destruct (l !! i) as [c|] eqn:Hl; simpl in Hi; [|done]. subst c.
  apply (Hno x). by eapply list_elem_of_lookup_2.
Qed.

Lemma series_mean_blank (l : list (option Q)) :
  present l = [] -> series_mean l = None.
Proof. unfold series_mean. by intros ->. Qed.

Lemma smart_advisory_nan_utilization (df : DataFrame) s f :
  smart_advisory df None s f = Normal \/ smart_advisory df None s f = Insufficient.
Proof. unfold smart_advisory. destruct (issubset _ _); simpl; auto. Qed.

Lemma pipeline_blank_utilization cap thr (df : DataFrame) l log log' r :
  df !! UTIL = Some (NumCol l) -> present l = [] ->
  pipeline cap thr df log = (log', r) ->
  exists evs, log' = log ++ evs
    /\ (metrics evs = [] \/
        exists f s, metrics evs = [("Avg Utilization"%string, None);
                                   ("Avg Flow Rate"%string, f);
                                   ("Max SHKR3"%string, s)])
    /\ (forall t, t ∈ advisories evs -> t = Normal \/ t = Insufficient).
Proof.
  intros Hu Hblank Hp. apply pipeline_log in Hp.
  rewrite (derive_supplied cap df ltac:(by eexists)) in Hp.
  destruct (kpis df) as [e|[[u f] s]] eqn:Hk.
  { destruct Hp as [-> _]. exists []. rewrite (right_id_L [] (++)).
    split_and!; [done|by left|]. intros t Ht. by apply elem_of_nil in Ht. }
  assert (u = None) as ->.
  { revert Hk. unfold kpis, getitem.
    assert (has_col df UTIL = true) as -> by (apply has_col_true; by eexists).
    rewrite Hu. simpl. rewrite (series_mean_blank l Hblank). simpl.
    destruct (if has_col df FLOW then _ else _); simpl; [done|].
    destruct (if has_col df SHAKER3 then _ else _); simpl; [done|].
    intros. by simplify_eq. }
  destruct Hp as (evs & -> & Hmet & _ & _ & Hadv).
  eexists. split; [reflexivity|]. rewrite !metrics_app, !advisories_app, Hmet, Hadv.
  split; [right; by exists f, s|].
  simpl. destruct r as [e|[]]; intros t Ht; [by apply elem_of_nil in Ht|].
  apply list_elem_of_singleton in Ht as ->. apply smart_advisory_nan_utilization.
Qed.

Section Blank.
Context `{Pandas}.

(** X11.  When the supplied utilisation column has no value in any row, the
    run never shows Overload or HighThroughput: the advisory is Normal or
    Insufficient; and with a shaker-3 column that is numeric or absent, the
    KPIs are displayed all three or not at all, the utilisation KPI being
    NaN. *)
Theorem blank_utilization_never_alarms
    (mesh : string) thr (df : DataFrame) (l : list (option Q)) log r :
  df !! UTIL = Some (NumCol l) -> present l = [] ->
  run mesh thr df = (log, r) ->
  (forall t, t ∈ advisories log -> t = Normal \/ t = Insufficient)
  /\ (numeric_or_absent df SHAKER3 ->
      metrics log = [] \/
      exists f s, metrics log = [("Avg Utilization"%string, None);
                                 ("Avg Flow Rate"%string, f);
                                 ("Max SHKR3"%string, s)]).
Proof.
  intros Hu Hblank Hrun.
  enough (Hboth :
    (metrics log = [] \/
     exists f s, metrics log = [("Avg Utilization"%string, None);
                                ("Avg Flow Rate"%string, f);
                                ("Max SHKR3"%string, s)])
    /\ (forall t, t ∈ advisories log -> t = Normal \/ t = Insufficient))
    by (destruct Hboth as [Hmet Hadv]; split; [exact Hadv|intros _; exact Hmet]).
  destruct (mesh_lookup mesh) as [e|cap] eqn:Hm.
  { unfold run, dashboard, sbind, lift in Hrun. rewrite Hm in Hrun.
    simplify_eq. split; [by left|]. intros t Ht. by apply elem_of_nil in Ht. }
  rewrite (run_unfold mesh cap thr df Hm) in Hrun.
  destruct (normalize df) as [e|df'] eqn:Hn.
  - apply (pipeline_blank_utilization cap thr df l) in Hrun
      as (evs & -> & Hmet & Hadv); [|done..].
    rewrite metrics_app, advisories_app. simpl. done.
  - destruct (normalize_other_columns df df' UTIL Hn) as [idx Hidx]; [done..|].
    rewrite Hu in Hidx. simpl in Hidx.
    apply (pipeline_blank_utilization cap thr df' (take idx l)) in Hrun
      as (evs & -> & Hmet & Hadv); [done|done|by apply take_blank].
Qed.
End Blank.

(** ** The threshold slider *)

Lemma scalar_gt_antitone (x : scalar) (k k' : Q) :
  (k <= k')%Q -> scalar_gt x k' = true -> scalar_gt x k = true.
Proof.
  destruct x as [v|]; [|done]. rewrite !scalar_gt_Some.
  intros Hle Hlt. by eapply Qle_lt_trans.
Qed.

Lemma daily_summary_unflag thr thr' (df : DataFrame) :
  match daily_summary thr df, daily_summary thr' df with
  | inl e, inl e' => e = e'
  | inr rows, inr rows' => unflag <$> rows = unflag <$> rows'
  | _, _ => False
  end.
Proof.
  unfold daily_summary.
  destruct (getitem df DATE) as [|by_col]; simpl; [done|].
  destruct (filter _ _); [|done].
  destruct (getitem df UTIL) as [|cu]; simpl; [done|].
  destruct (numeric cu) as [|u]; simpl; [done|].
  destruct (getitem df FLOW) as [|cf]; simpl; [done|].
  destruct (numeric cf) as [|f]; simpl; [done|].
  destruct (getitem df SHAKER3) as [|cs]; simpl; [done|].
  destruct (numeric cs) as [|s]; simpl; [done|].
  rewrite <- !list_fmap_compose. by apply list_fmap_ext.
Qed.

(** X12.  The threshold only sets the flags of the daily rows: for two
    thresholds the aggregation fails the same way or gives the same rows up
    to their flags, and every row flagged under the higher threshold is
    flagged under the lower one. *)
Theorem threshold_only_sets_flags thr thr' (df : DataFrame) :
  match daily_summary thr df, daily_summary thr' df with
  | inl e, inl e' => e = e'
  | inr rows, inr rows' =>
      unflag <$> rows = unflag <$> rows'
      /\ (thr <= thr' ->
          forall i r r', rows !! i = Some r -> rows' !! i = Some r' ->
                         exceeds_threshold r' = true -> exceeds_threshold r = true)
  | _, _ => False
  end.
Proof.
  unfold daily_summary.
  destruct (getitem df DATE) as [|by_col]; simpl; [done|].
  destruct (filter _ _); [|done].
  destruct (getitem df UTIL) as [|cu]; simpl; [done|].
  destruct (numeric cu) as [|u]; simpl; [done|].
  destruct (getitem df FLOW) as [|cf]; simpl; [done|].
  destruct (numeric cf) as [|f]; simpl; [done|].
  destruct (getitem df SHAKER3) as [|cs]; simpl; [done|].
  destruct (numeric cs) as [|s]; simpl; [done|].
  split.
  - rewrite <- !list_fmap_compose. by apply list_fmap_ext.
  - intros Hle i r r' Hr Hr'.
    rewrite list_lookup_fmap in Hr, Hr'.
    destruct (group_keys key_compare (col_keys by_col) !! i) as [k|];
      simpl in Hr, Hr'; [|done].
    simplify_eq. simpl. apply scalar_gt_antitone.
    rewrite <- Zle_Qle. exact Hle.
Qed.

Lemma daily_block_threshold thr thr' (df : DataFrame) log :
  exists evs evs' r,
    daily_block thr df log = (log ++ evs, r)
    /\ daily_block thr' df log = (log ++ evs', r)
    /\ unflag_ui <$> evs = unflag_ui <$> evs'.
Proof.
  pose proof (daily_summary_unflag thr thr' df) as Hthr.
  unfold daily_block, try_except, sbind, lift, emit.
  destruct (daily_summary thr df) as [e|rows],
           (daily_summary thr' df) as [e'|rows']; try done; simpl.
  - subst e'. destruct (is_KeyError e).
    + eexists _, _, _. rewrite <- !(assoc_L (++)). by split_and!.
    + exists [], [], (inl e). by rewrite (right_id_L [] (++)).
  - eexists _, _, _. rewrite <- !(assoc_L (++)).
    split_and!; [reflexivity..|]. simpl. by rewrite Hthr.
Qed.

Lemma pipeline_threshold cap thr thr' (df : DataFrame) log :
  (pipeline cap thr df log).2 = (pipeline cap thr' df log).2
  /\ exists evs evs',
       (pipeline cap thr df log).1 = log ++ evs
       /\ (pipeline cap thr' df log).1 = log ++ evs'
       /\ unflag_ui <$> evs = unflag_ui <$> evs'.
Proof.
  rewrite !pipeline_unfold.
  destruct (derive cap df) as [e|df']; simpl.
  { split; [done|]. exists [], []. by rewrite (right_id_L [] (++)). }
  destruct (kpis df') as [e|[[u f] s]]; simpl.
  { split; [done|]. exists [], []. by rewrite (right_id_L [] (++)). }
  destruct (charts df' _) as [log1 r1] eqn:Hc.
  apply charts_log in Hc as (ev1 & -> & _).
  destruct r1 as [e|[]]; simpl.
  { split; [done|]. eexists _, _. rewrite <- !(assoc_L (++)). by split_and!. }
  destruct (daily_block_threshold thr thr' df'
              ((((log ++ [st_metric "Avg Utilization" u]) ++
                 [st_metric "Avg Flow Rate" f]) ++ [st_metric "Max SHKR3" s]) ++ ev1))
    as (evs & evs' & r & -> & -> & Hevs).
  destruct r as [e|[]]; simpl.
  { split; [done|]. eexists _, _. rewrite <- !(assoc_L (++)).
    split_and!; [reflexivity..|]. rewrite !fmap_app, Hevs. done. }
  split; [done|].
  eexists _, _. rewrite <- !(assoc_L (++)).
  split_and!; [reflexivity..|]. rewrite !fmap_app, Hevs. done.
Qed.

Lemma metrics_unflag log : metrics (unflag_ui <$> log) = metrics log.
Proof.
  unfold metrics. induction log as [|ev log IH]; [done|].
  destruct ev; csimpl; by rewrite IH.
Qed.

Lemma advisories_unflag log : advisories (unflag_ui <$> log) = advisories log.
Proof.
  unfold advisories. induction log as [|ev log IH]; [done|].
  destruct ev; csimpl; by rewrite IH.
Qed.

Section Threshold.
Context `{Pandas}.

(** X13.  Two runs that differ only in the threshold end the same way and
    make the same calls up to the flags in the daily table; in particular
    they display the same KPIs and the same advisory. *)
Theorem threshold_does_not_change_run (mesh : string) thr thr' (df : DataFrame) :
  (run mesh thr df).2 = (run mesh thr' df).2
  /\ unflag_ui <$> (run mesh thr df).1 = unflag_ui <$> (run mesh thr' df).1
  /\ metrics (run mesh thr df).1 = metrics (run mesh thr' df).1
  /\ advisories (run mesh thr df).1 = advisories (run mesh thr' df).1.
Proof.
  assert (Hmain : (run mesh thr df).2 = (run mesh thr' df).2
    /\ unflag_ui <$> (run mesh thr df).1 = unflag_ui <$> (run mesh thr' df).1).
  { destruct (mesh_lookup mesh) as [e|cap] eqn:Hm.
    { unfold run, dashboard, sbind, lift. by rewrite Hm. }
    rewrite !(run_unfold mesh cap _ df Hm).
    destruct (normalize df) as [e|df'];
      match goal with |- context [pipeline cap thr ?g ?l] =>
        destruct (pipeline_threshold cap thr thr' g l)
          as (Hr & evs & evs' & -> & -> & Hevs) end;
      (split; [done|]); by rewrite !fmap_app, Hevs. }
  destruct Hmain as [Hr Hlog]. split_and!; [done..| |].
  - by rewrite <- (metrics_unflag (run mesh thr df).1), Hlog, metrics_unflag.
  - by rewrite <- (advisories_unflag (run mesh thr df).1), Hlog, advisories_unflag.
Qed.
End Threshold.

(** ** Daily rows *)

Lemma daily_summary_row thr (df : DataFrame) rows r :
  daily_summary thr df = inr rows -> r ∈ rows ->
  exists by_col u f s,
    df !! DATE = Some by_col /\ df !! UTIL = Some (NumCol u)
    /\ df !! FLOW = Some (NumCol f) /\ df !! SHAKER3 = Some (NumCol s)
    /\ ds_date r ∈ group_keys key_compare (col_keys by_col)
    /\ avg_utilization r = series_mean (group_cells (ds_date r) (col_keys by_col) u)
    /\ avg_flow r = series_mean (group_cells (ds_date r) (col_keys by_col) f)
    /\ avg_shaker3 r = series_mean (group_cells (ds_date r) (col_keys by_col) s)
    /\ max_shaker3 r = series_max (group_cells (ds_date r) (col_keys by_col) s).
Proof.
  unfold daily_summary, getitem. intros Hd Hr.
  destruct (df !! DATE) as [by_col|]; simpl in Hd; [|done].
  destruct (filter _ _); [|done].
  destruct (df !! UTIL) as [[|u| |]|]; simpl in Hd; try done.
  destruct (df !! FLOW) as [[|f| |]|]; simpl in Hd; try done.
  destruct (df !! SHAKER3) as [[|s| |]|]; simpl in Hd; try done.
  simplify_eq. apply list_elem_of_fmap in Hr as (k & -> & Hk).
  exists by_col, u, f, s. by split_and!.
Qed.

Lemma group_cells_sub k keys (vals : list (option Q)) c :
  c ∈ group_cells k keys vals -> c ∈ vals.
Proof.
  unfold group_cells. intros Hc.
  apply list_elem_of_omap in Hc as ([k' v] & Hp & Hg). simpl in Hg.
  destruct k' as [k'|]; [|done]. destruct (key_compare k k'); simplify_eq.
  by eapply elem_of_zip_r.
Qed.

(** X15.  No daily shaker-3 maximum exceeds the whole-run KPI: when a daily
    row has a maximum, the KPI reduction of the same frame succeeds with a
    defined shaker-3 maximum that is at least as large. *)
Theorem daily_max_below_overall_max thr (df : DataFrame) rows r m :
  daily_summary thr df = inr rows -> r ∈ rows -> max_shaker3 r = Some m ->
  exists avg_util avg_flow M,
    kpis df = inr (avg_util, avg_flow, Some M) /\ (m <= M)%Q.
Proof.
  intros Hd Hr Hm.
  destruct (daily_summary_row thr df rows r Hd Hr)
    as (by_col & u & f & s & _ & Hu & Hf & Hs & _ & _ & _ & _ & Hmax).
  rewrite Hm in Hmax.
  pose proof (series_max_spec (group_cells (ds_date r) (col_keys by_col) s)) as Hgm.
  rewrite <- Hmax in Hgm. destruct Hgm as [Hin _].
  assert (Hin' : m ∈ present s).
  { unfold present in *. apply list_elem_of_omap in Hin as (c & Hc & Hcm).
    apply list_elem_of_omap. exists c. split; [|done]. by eapply group_cells_sub. }
  pose proof (series_max_spec s) as Hsm.
  destruct (series_max s) as [M|] eqn:HM; simpl in Hsm.
  - exists (series_mean u), (series_mean f), M. split; [|by apply Hsm].
    unfold kpis, getitem.
    assert (has_col df UTIL = true) as -> by (apply has_col_true; by eexists).
    assert (has_col df FLOW = true) as -> by (apply has_col_true; by eexists).
    assert (has_col df SHAKER3 = true) as -> by (apply has_col_true; by eexists).
    rewrite Hu, Hf, Hs. simpl. by rewrite HM.
  - rewrite Hsm in Hin'. by apply elem_of_nil in Hin'.
Qed.

(** ** Every dated cell falls in one group *)

Lemma day_cells_nil_l d vals : day_cells d [] vals = [].
Proof. done. Qed.

Lemma day_cells_nil_r d days : day_cells d days [] = [].
Proof. unfold day_cells, group_cells. by destruct days. Qed.

Lemma day_cells_cons_None d days v vals :
  day_cells d (None :: days) (v :: vals) = day_cells d days vals.
Proof. done. Qed.

Lemma day_cells_cons_Some d d0 days v vals :
  day_cells d (Some d0 :: days) (v :: vals)
  = (if decide (d = d0) then [v] else []) ++ day_cells d days vals.
Proof.
  unfold day_cells, group_cells. simpl.
  destruct (Z.compare_spec d d0) as [->| |]; case_decide; try lia; done.
Qed.

Lemma mjoin_fmap_app {A B} (f g : A -> list B) (l : list A) :
  mjoin ((fun a => f a ++ g a) <$> l) ≡ₚ mjoin (f <$> l) ++ mjoin (g <$> l).
Proof.
  induction l as [|a l IH]; [done|]. csimpl. rewrite IH. solve_Permutation.
Qed.

Lemma mjoin_fmap_nil {A B} (l : list A) : mjoin ((fun _ => @nil B) <$> l) = [].
Proof. induction l as [|a l IH]; [done|]. by csimpl. Qed.

Lemma mjoin_one_day {B} (v : B) (d0 : Z) (ds : list Z) :
  NoDup ds -> d0 ∈ ds ->
  mjoin ((fun d => if decide (d = d0) then [v] else []) <$> ds) = [v].
Proof.
  induction 1 as [|d ds Hnin Hnd IH]; intros Hin; [by apply elem_of_nil in Hin|].
  csimpl. case_decide as Hd.
  - subst d. simpl. f_equal. clear IH Hin Hnd.
    induction ds as [|d' ds IH]; [done|]. csimpl.
    apply not_elem_of_cons in Hnin as [Hne Hnin].
    rewrite decide_False by done. simpl. by apply IH.
  - simpl. apply IH. apply elem_of_cons in Hin as [->|Hin]; done.
Qed.

Lemma day_cells_partition (ds : list Z) :
  NoDup ds ->
  forall days vals,
    (forall d, Some d ∈ days -> d ∈ ds) ->
    mjoin ((fun d => day_cells d days vals) <$> ds) ≡ₚ dated_cells days vals.
Proof.
  intros Hnd days. induction days as [|[d0|] days IH]; intros vals Hall.
  - rewrite (list_fmap_ext _ (fun _ => []) ds) by done. by rewrite mjoin_fmap_nil.
  - destruct vals as [|v vals].
    + rewrite (list_fmap_ext _ (fun _ => []) ds)
        by (intros; apply day_cells_nil_r).
      by rewrite mjoin_fmap_nil.
    + rewrite (list_fmap_ext _ (fun d => (if decide (d = d0) then [v] else [])
                                  ++ day_cells d days vals) ds)
        by (intros; apply day_cells_cons_Some).
      rewrite mjoin_fmap_app, mjoin_one_day;
        [|done|apply Hall, list_elem_of_here].
      unfold dated_cells. simpl. f_equiv.
      apply IH. intros d Hd. by apply Hall, list_elem_of_further.
  - destruct vals as [|v vals].
    + rewrite (list_fmap_ext _ (fun _ => []) ds)
        by (intros; apply day_cells_nil_r).
      by rewrite mjoin_fmap_nil.
    + rewrite (list_fmap_ext _ (fun d => day_cells d days vals) ds) by done.
      unfold dated_cells. simpl.
      apply IH. intros d Hd. by apply Hall, list_elem_of_further.
Qed.

(** X16.  Grouping by date splits the rows that have a date: taken over all
    dates of the daily table, the groups of a value column hold exactly the
    cells of the dated rows, each once; rows without a date are in no
    group. *)
Theorem every_dated_cell_in_one_group (days : list (option Z)) (vals : list (option Q)) :
  mjoin ((fun d => group_cells (DayKey d) (col_keys (DateCol days)) vals)
         <$> group_keys Z.compare days)
  ≡ₚ dated_cells days vals.
Proof.
  apply (day_cells_partition (group_keys Z.compare days)).
  - apply strictly_ascending_NoDup, day_keys_sorted.
  - intros d Hd. by apply day_keys_elem.
Qed.

(** ** Columns after normalisation *)
Section Columns.
Context `{Pandas}.

(** X17.  A successful normalisation keeps every column of the upload and
    adds exactly the [Timestamp] and [Date] columns (replacing columns of
    those names if the upload had them), as a datetime and a date column. *)
Theorem normalize_adds_timestamp_and_date (df df' : DataFrame) :
  normalize df = inr df' ->
  dom df' = {[TIMESTAMP; DATE]} ∪ dom df
  /\ (exists ts, df' !! TIMESTAMP = Some (TimeCol ts))
  /\ (exists ds, df' !! DATE = Some (DateCol ds)).
Proof.
  intros Hn. apply normalize_structure in Hn as (s & ts & _ & _ & ->).
  split_and!.
  - rewrite dom_insert_L, dom_fmap_L, dom_insert_L.
    by rewrite (assoc_L (∪)), (comm_L (∪) {[DATE]} {[TIMESTAMP]}).
  - eexists. by rewrite lookup_insert_ne, lookup_fmap, lookup_insert_eq.
  - eexists. by rewrite lookup_insert_eq.
Qed.
End Columns.

(** ** Witnesses *)
Lemma underivable_utilization_gives_insufficient_witness :
  bad_date_df !! UTIL = None /\ bad_date_df !! WOB = None
  /\ numeric_or_absent bad_date_df SHAKER3
  /\ advisories (@run reference_pandas "API 140" 80 bad_date_df).1 = [Insufficient]
  /\ length (metrics (@run reference_pandas "API 140" 80 bad_date_df).1) <> 2%nat.
Proof.
  assert (Hs : numeric_or_absent bad_date_df SHAKER3) by (by vm_compute).
  split_and!; [reflexivity..|exact Hs| |];
  destruct (@underivable_utilization_gives_insufficient reference_pandas
              "API 140" 80 bad_date_df
              (@run reference_pandas "API 140" 80 bad_date_df).1 (inr tt))
    as [Hadv Hmet]; [reflexivity|left; reflexivity|by vm_compute|exact Hadv
                    |reflexivity|left; reflexivity|by vm_compute|].
  by destruct (Hmet Hs) as [->|(f & s & ->)].
Defined.

Lemma mesh_type_irrelevant_when_utilization_supplied_witness :
  is_Some (no_flow_df !! UTIL)
  /\ @run reference_pandas "API 100" 80 no_flow_df
     = @run reference_pandas "API 200" 80 no_flow_df.
Proof.
  assert (Hu : is_Some (no_flow_df !! UTIL)) by (by eexists).
  split; [exact Hu|].
  by apply (@mesh_type_irrelevant_when_utilization_supplied reference_pandas
              "API 100" "API 200" 250 120 80 no_flow_df Hu).
Defined.

Lemma blank_utilization_never_alarms_witness :
  present [None; None; None : option Q] = []
  /\ numeric_or_absent blank_util_df SHAKER3
  /\ Forall (fun t => t = Normal \/ t = Insufficient)
       (advisories (@run reference_pandas "API 140" 80 blank_util_df).1)
  /\ length (metrics (@run reference_pandas "API 140" 80 blank_util_df).1) <> 2%nat.
Proof.
  assert (Hs : numeric_or_absent blank_util_df SHAKER3) by (by vm_compute).
  split_and!; [reflexivity|exact Hs|apply Forall_forall|];
  destruct (@blank_utilization_never_alarms reference_pandas "API 140" 80
              blank_util_df [None; None; None]
              (@run reference_pandas "API 140" 80 blank_util_df).1
              (@run reference_pandas "API 140" 80 blank_util_df).2)
    as [Hadv Hmet]; [reflexivity|reflexivity|by destruct (run _ _ _)|exact Hadv
                    |reflexivity|reflexivity|by destruct (run _ _ _)|].
  by destruct (Hmet Hs) as [->|(f & s & ->)].
Defined.

Lemma run_log_shape_witness :
  exists t, advisories (@run reference_pandas "API 140" 80 full_df).1 = [t].
Proof.
  destruct (@run_log_shape reference_pandas "API 140" 80 full_df
              (@run reference_pandas "API 140" 80 full_df).1 (inr tt))
    as (_ & _ & _ & _ & Hfin); [by vm_compute..|].
  destruct (Hfin eq_refl) as (t & Ht & _). by exists t.
Defined.

Lemma well_typed_run_stops_only_at_charts_witness :
  (@run reference_pandas "API 140" 80 bad_date_flow_df).2 = inl (ValueError TIMESTAMP)
  /\ (exists e', @normalize reference_pandas bad_date_flow_df = inl e')
  /\ bad_date_flow_df !! TIMESTAMP = None
  /\ is_Some (bad_date_flow_df !! FLOW).
Proof.
  split; [by vm_compute|].
  pose proof (@well_typed_run_stops_only_at_charts reference_pandas "API 140" 200 80
                bad_date_flow_df
                (@run reference_pandas "API 140" 80 bad_date_flow_df).1
                (inl (ValueError TIMESTAMP)) eq_refl) as Hstop.
  destruct Hstop as (Hn & Hts & [[_ He]|(_ & Hf & _)]);
    [by vm_compute..|discriminate He|].
  by split_and!.
Defined.

Lemma well_typed_run_completes_witness :
  exists log t,
    @run reference_pandas "API 140" 80 full_df = (log, inr tt)
    /\ advisories log = [t].
Proof.
  destruct (@normalize reference_pandas full_df) as [e|df'] eqn:Hn;
    [by vm_compute in Hn|].
  destruct (@well_typed_run_completes reference_pandas "API 140" 200 80
              full_df df' eq_refl Hn)
    as (log & t & Hrun & _ & _ & Hadv & _); [by vm_compute..|].
  by exists log, t.
Defined.

Lemma dates_follow_sorted_timestamps_witness :
  exists df' ds,
    @normalize reference_pandas full_df = inr df'
    /\ df' !! DATE = Some (DateCol ds) /\ StronglySorted ts_le ds.
Proof.
  destruct (@normalize reference_pandas full_df) as [e|df'] eqn:Hn;
    [by vm_compute in Hn|].
  destruct (@dates_follow_sorted_timestamps reference_pandas
              reference_argsort_contract full_df df' Hn)
    as (ts & ds & _ & Hds & _ & _ & _ & Hsorted).
  by exists df', ds.
Defined.

Lemma sort_rearranges_cells_witness :
  exists df' l',
    @normalize reference_pandas full_df = inr df'
    /\ df' !! FLOW = Some (NumCol l')
    /\ l' ≡ₚ [Some 400%Q; Some 300%Q; Some 400%Q].
Proof.
  destruct (@normalize reference_pandas full_df) as [e|df'] eqn:Hn;
    [by vm_compute in Hn|].
  destruct (@sort_rearranges_cells reference_pandas reference_argsort_contract
              full_df df'
              [Some "2024/01/02 10:00:00"; Some "2024/01/01 09:00:00";
               Some "2024/01/02 11:00:00"]
              FLOW [Some 400%Q; Some 300%Q; Some 400%Q] Hn)
    as (l' & Hl' & Hperm & _); [reflexivity|done|done|reflexivity|reflexivity|].
  by exists df', l'.
Defined.

Lemma daily_max_below_overall_max_witness :
  exists rows r m M,
    daily_summary 80 two_day_df = inr rows /\ r ∈ rows
    /\ max_shaker3 r = Some m /\ (m <= M)%Q.
Proof.
  destruct (daily_summary 80 two_day_df) as [e|[|r rows]] eqn:Hd;
    [by vm_compute in Hd..|].
  assert (Hin : r ∈ r :: rows) by apply list_elem_of_here.
  assert (Hm : max_shaker3 r = Some 96%Q)
    by (vm_compute in Hd; by injection Hd as <- <-).
  destruct (daily_max_below_overall_max 80 two_day_df (r :: rows) r 96%Q Hd Hin Hm)
    as (_ & _ & M & _ & Hle).
  by exists (r :: rows), r, 96%Q, M.
Defined.

Lemma normalize_adds_timestamp_and_date_witness :
  exists df',
    @normalize reference_pandas tied_df = inr df'
    /\ dom df' = {[TIMESTAMP; DATE]} ∪ dom tied_df.
Proof.
  destruct (@normalize reference_pandas tied_df) as [e|df'] eqn:Hn;
    [by vm_compute in Hn|].
  exists df'. split; [done|].
  by destruct (@normalize_adds_timestamp_and_date reference_pandas tied_df df' Hn).
Defined.
